(** * Consent reconciliation engine: src/consent-manager-builder/index.tsx

    A shallow embedding of [ConsentManagerBuilder] and of its two helpers
    [destinationsWithoutConsent] and [mergePreferences], followed by the
    properties of the engine.

    Conventions of the embedding.
    - A JavaScript object used as a dictionary is a [gmap string _] of its own
      properties. Spread, computed keys and [Object.values] see own
      properties only; a property read [obj[key]] also sees the members that
      every ordinary object inherits from [Object.prototype].
    - An optional value ([x?: T], [T | undefined]) is an [option].
    - A promise, and a call that may throw, is an [Outcome].
    - The effects of the engine on its collaborators (store write, analytics
      activation, error handler) are recorded in a log of [Event]s. *)

From stdpp Require Import base option list strings gmap fin_maps.

Open Scope string_scope.
Open Scope list_scope.

(** ** Data model *)

(** The values a preference can hold, [boolean | null | undefined], and
    [VObject] for any object or function, which is what a read finds under a
    name inherited from [Object.prototype]. *)
Inductive PrefValue : Type :=
  | VUndefined
  | VNull
  | VBool (b : bool)
  | VObject.

#[global] Instance PrefValue_eq_dec : EqDecision PrefValue.
Proof. solve_decision. Defined.

(** [CategoryPreferences]: identifier to preference value. *)
Abbreviation CategoryPreferences := (gmap string PrefValue).

(** [Destination]: only [id] is read by the engine; the remaining descriptive
    fields travel through it untouched and are kept as one payload. *)
Record Destination : Type := mkDestination {
  id : string;
  description : string
}.

#[global] Instance Destination_eq_dec : EqDecision Destination.
Proof. solve_decision. Defined.

(** The own properties of [Object.prototype] (ECMAScript, with Annex B):
    the names under which a read of an ordinary object finds a function, or
    for [__proto__] the prototype itself, when the object has no own property
    of that name. *)
Definition inheritedNames : list string :=
  ["constructor"; "hasOwnProperty"; "isPrototypeOf"; "propertyIsEnumerable";
   "toLocaleString"; "toString"; "valueOf"; "__proto__";
   "__defineGetter__"; "__defineSetter__"; "__lookupGetter__"; "__lookupSetter__"].

Definition inherited (key : string) : bool := bool_decide (key ∈ inheritedNames).

(** Property read [obj[key]]: the own property when there is one, else the
    member inherited under that name, else [undefined]. *)
Definition get (obj : CategoryPreferences) (key : string) : PrefValue :=
  match obj !! key with
  | Some v => v
  | None => if inherited key then VObject else VUndefined
  end.

(** [Object.values(obj)]. *)
Definition values (obj : CategoryPreferences) : list PrefValue :=
  (map_to_list obj).*2.

(** [Boolean(v)]. *)
Definition truthy (v : PrefValue) : bool :=
  match v with
  | VBool true | VObject => true
  | _ => false
  end.

(** [v === null || v === undefined]. *)
Definition nullish (v : PrefValue) : bool :=
  match v with
  | VNull | VUndefined => true
  | VBool _ | VObject => false
  end.

(** [a || b] on an optional object: an object is always truthy. *)
Definition or_else {A : Type} (a b : option A) : option A :=
  match a with
  | Some x => Some x
  | None => b
  end.

(** ** The two pure helpers *)

(** Lines 17-26. *)
Definition destinationsWithoutConsent
    (destinations : list Destination)
    (destinationPreferences : option CategoryPreferences) : list Destination :=
  match destinationPreferences with
  | None => destinations
  | Some prefs =>
      List.filter (fun d => bool_decide (get prefs (id d) = VUndefined)) destinations
  end.

(** The third argument of [mergePreferences],
    [CategoryPreferences | boolean | undefined]. *)
Inductive NewPreferences : Type :=
  | NPUndefined
  | NPBoolean (b : bool)
  | NPObject (prefs : CategoryPreferences).

(** Object spread [{...a, ...b}]: the properties of [b] win. *)
Definition spread (a b : CategoryPreferences) : CategoryPreferences := b ∪ a.

(** Lines 253-274. *)
Definition mergePreferences
    (destinations : list Destination)
    (existingPreferences : CategoryPreferences)
    (newPreferences : NewPreferences) : CategoryPreferences :=
  match newPreferences with
  | NPBoolean b =>
      fold_left (fun prefs destination => <[id destination := VBool b]> prefs)
                destinations ∅
  | NPObject prefs => spread existingPreferences prefs
  | NPUndefined => spread existingPreferences ∅
  end.

(** ** Collaborators and effects *)

Definition Error : Type := string.

(** Settlement of a promise, or result of a call that may throw. *)
Inductive Outcome (A : Type) : Type :=
  | Resolved (a : A)
  | Rejected (e : Error).
Arguments Resolved {A} a.
Arguments Rejected {A} e.

(** What [loadPreferences()] returns. *)
Record Preferences : Type := mkPreferences {
  loaded_destinationPreferences : option CategoryPreferences;
  loaded_customPreferences : option CategoryPreferences
}.

(** What [mapCustomPreferences] returns; line 231 makes [customPreferences]
    optional. *)
Record Mapped : Type := mkMapped {
  mapped_destinationPreferences : CategoryPreferences;
  mapped_customPreferences : option CategoryPreferences
}.

(** Argument of [savePreferences]. *)
Record SaveArgs : Type := mkSaveArgs {
  save_destinationPreferences : CategoryPreferences;
  save_customPreferences : option CategoryPreferences;
  save_cookieDomain : option string
}.

(** Argument of [conditionallyLoadAnalytics]. *)
Record AnalyticsArgs : Type := mkAnalyticsArgs {
  analytics_writeKey : string;
  analytics_destinations : list Destination;
  analytics_destinationPreferences : CategoryPreferences;
  analytics_isConsentRequired : bool;
  analytics_shouldReload : option bool
}.

(** The calls the engine makes that have an effect outside of it. *)
Inductive Event : Type :=
  | EvSavePreferences (args : SaveArgs)
  | EvLoadAnalytics (args : AnalyticsArgs)
  | EvOnError (e : Error).

(** The imported modules, as they answer at the time of one engine operation.
    [fetchSettlesFirst] is the order in which the two lookups joined by
    [Promise.all] settle. *)
Record Collaborators : Type := mkCollaborators {
  loadPreferences : Outcome Preferences;
  savePreferences : SaveArgs -> Outcome unit;
  fetchDestinations : list string -> Outcome (list Destination);
  conditionallyLoadAnalytics : AnalyticsArgs -> Outcome unit;
  fetchSettlesFirst : bool
}.

(** [Props], lines 28-64, without the render callback. *)
Record Props : Type := mkProps {
  writeKey : string;
  otherWriteKeys : option (list string);
  cookieDomain : option string;
  initialPreferences : option CategoryPreferences;
  shouldRequireConsent : option (Outcome bool);
  mapCustomPreferences :
    option (list Destination -> CategoryPreferences -> Outcome Mapped);
  onError : option (Error -> Outcome unit)
}.

(** [State], lines 76-82. [state_destinationPreferences] is the extra
    property that line 249 adds to the state object. *)
Record State : Type := mkState {
  isLoading : bool;
  destinations : list Destination;
  newDestinations : list Destination;
  preferences : option CategoryPreferences;
  isConsentRequired : bool;
  state_destinationPreferences : option CategoryPreferences
}.

(** Data handed to the render callback, lines 110-118 (the three bound
    handlers are the operations below). *)
Record RenderProps : Type := mkRenderProps {
  render_destinations : list Destination;
  render_newDestinations : list Destination;
  render_preferences : option CategoryPreferences;
  render_isConsentRequired : bool
}.

(** ** The component instance and its monad *)

(** A mounted component: its [this.state], and the effects it has had on its
    collaborators so far, oldest first. *)
Record Component : Type := mkComponent {
  state : State;
  effects : list Event
}.

(** A computation of the component: it reads and writes the instance and
    either returns or throws. What it did before throwing stays done. *)
Definition M (A : Type) : Type := Component -> Outcome A * Component.

Definition ret {A : Type} (a : A) : M A := fun c => (Resolved a, c).

Definition bind {A B : Type} (m : M A) (k : A -> M B) : M B :=
  fun c =>
    match m c with
    | (Resolved a, c') => k a c'
    | (Rejected e, c') => (Rejected e, c')
    end.

(** The engine is written with the [x ← m; k] notation of stdpp. *)
#[global] Instance M_ret : MRet M := @ret.
#[global] Instance M_bind : MBind M := fun A B k m => bind m k.

(** [await p], or a call whose exception is not caught here. *)
Definition call {A : Type} (o : Outcome A) : M A := fun c => (o, c).

Definition emit (ev : Event) : M unit :=
  fun c => (Resolved tt, {| state := state c; effects := effects c ++ [ev] |}).

(** [try { m } catch (e) { handler e }]. *)
Definition try_catch {A : Type} (m : M A) (handler : Error -> M A) : M A :=
  fun c =>
    match m c with
    | (Resolved a, c') => (Resolved a, c')
    | (Rejected e, c') => handler e c'
    end.

(** [this.setState({...})] with an object: [patch] replaces the listed
    properties of the current state. *)
Definition setState (patch : State -> State) : M unit :=
  fun c => (Resolved tt, {| state := patch (state c); effects := effects c |}).

(** [this.setState(prevState => ...)] with an updater: the state becomes what
    the updater returns; an updater that throws changes nothing. *)
Definition setStateWith (updater : State -> M State) : M unit :=
  fun c =>
    match updater (state c) c with
    | (Resolved next, c') => (Resolved tt, {| state := next; effects := effects c' |})
    | (Rejected e, c') => (Rejected e, c')
    end.

(** [Promise.all([a, b])]: resolved when both are, rejected with the reason
    of the lookup that is rejected first. *)
Definition promise_all {A B : Type} (secondSettlesFirst : bool)
    (a : Outcome A) (b : Outcome B) : Outcome (A * B) :=
  match a, b with
  | Resolved x, Resolved y => Resolved (x, y)
  | Rejected e, Resolved _ => Rejected e
  | Resolved _, Rejected e => Rejected e
  | Rejected ea, Rejected eb => Rejected (if secondSettlesFirst then eb else ea)
  end.

(** ** The component *)

(** [static defaultProps], lines 87-92, as React applies them: a default
    replaces a prop that is [undefined]. *)
Definition withDefaultProps (props : Props) : Props :=
  {| writeKey := writeKey props;
     otherWriteKeys := or_else (otherWriteKeys props) (Some []);
     cookieDomain := cookieDomain props;
     initialPreferences := or_else (initialPreferences props) (Some ∅);
     shouldRequireConsent := or_else (shouldRequireConsent props) (Some (Resolved true));
     mapCustomPreferences := mapCustomPreferences props;
     onError := onError props |}.

(** Lines 94-100. *)
Definition initialState : State :=
  {| isLoading := true;
     destinations := [];
     newDestinations := [];
     preferences := Some ∅;
     isConsentRequired := true;
     state_destinationPreferences := None |}.

(** Lines 102-119: [None] is [return null], [Some r] is [children(r)]. *)
Definition render (state : State) : option RenderProps :=
  if isLoading state then None
  else Some {| render_destinations := destinations state;
               render_newDestinations := newDestinations state;
               render_preferences := preferences state;
               render_isConsentRequired := isConsentRequired state |}.

(** Lines 134-184. The [customPreferences] that line 164 reassigns is not
    read again and is left out. *)
Definition initialise (props : Props) (env : Collaborators) : M unit :=
  let otherWriteKeys := default [] (otherWriteKeys props) in
  let shouldRequireConsent := default (Resolved true) (shouldRequireConsent props) in
  let initialPreferences := initialPreferences props in
  loaded ← call (loadPreferences env);
  let destinationPreferences := default ∅ (loaded_destinationPreferences loaded) in
  let customPreferences := loaded_customPreferences loaded in
  '(isConsentRequired, destinations) ←
     call (promise_all (fetchSettlesFirst env)
             shouldRequireConsent
             (fetchDestinations env (writeKey props :: otherWriteKeys)));
  let newDestinations :=
    destinationsWithoutConsent destinations (Some destinationPreferences) in
  '(preferences, destinationPreferences) ←
     match mapCustomPreferences props with
     | Some mapCustomPreferences =>
         let preferences :=
           default ∅ (or_else customPreferences initialPreferences) in
         let hasInitialPreferenceToTrue :=
           existsb truthy (values (default ∅ initialPreferences)) in
         let emptyCustomPreferecences :=
           forallb nullish (values (default ∅ customPreferences)) in
         if hasInitialPreferenceToTrue && emptyCustomPreferecences then
           mapped ← call (mapCustomPreferences destinations preferences);
           mret (Some preferences, mapped_destinationPreferences mapped)
         else
           mret (Some preferences, destinationPreferences)
     | None =>
         mret (or_else (Some destinationPreferences) initialPreferences,
               destinationPreferences)
     end;
  let args := {| analytics_writeKey := writeKey props;
                 analytics_destinations := destinations;
                 analytics_destinationPreferences := destinationPreferences;
                 analytics_isConsentRequired := isConsentRequired;
                 analytics_shouldReload := None |} in
  emit (EvLoadAnalytics args);;
  call (conditionallyLoadAnalytics env args);;
  setState (fun state =>
    {| isLoading := false;
       destinations := destinations;
       newDestinations := newDestinations;
       preferences := preferences;
       isConsentRequired := isConsentRequired;
       state_destinationPreferences := state_destinationPreferences state |}).

(** Lines 121-132. *)
Definition componentDidMount (props : Props) (env : Collaborators) : M unit :=
  match onError props with
  | Some onError =>
      try_catch (initialise props env)
                (fun e => emit (EvOnError e);; call (onError e))
  | None => initialise props env
  end.

(** Lines 186-192. *)
Definition handleSetPreferences (newPreferences : NewPreferences) : M unit :=
  setStateWith (fun prevState =>
    let destinations := destinations prevState in
    let existingPreferences := default ∅ (preferences prevState) in
    let preferences :=
      mergePreferences destinations existingPreferences newPreferences in
    mret {| isLoading := isLoading prevState;
            destinations := destinations;
            newDestinations := newDestinations prevState;
            preferences := Some preferences;
            isConsentRequired := isConsentRequired prevState;
            state_destinationPreferences := state_destinationPreferences prevState |}).

(** Lines 194-206. *)
Definition handleResetPreferences (props : Props) (env : Collaborators) : M unit :=
  let initialPreferences := initialPreferences props in
  loaded ← call (loadPreferences env);
  let destinationPreferences := loaded_destinationPreferences loaded in
  let customPreferences := loaded_customPreferences loaded in
  let preferences :=
    match mapCustomPreferences props with
    | Some _ => or_else customPreferences initialPreferences
    | None => or_else destinationPreferences initialPreferences
    end in
  setState (fun state =>
    {| isLoading := isLoading state;
       destinations := destinations state;
       newDestinations := newDestinations state;
       preferences := preferences;
       isConsentRequired := isConsentRequired state;
       state_destinationPreferences := state_destinationPreferences state |}).

(** Lines 208-251. *)
Definition handleSaveConsent (props : Props) (env : Collaborators)
    (newPreferences : NewPreferences) (shouldReload : option bool) : M unit :=
  setStateWith (fun prevState =>
    let destinations := destinations prevState in
    let existingPreferences := default ∅ (preferences prevState) in
    let isConsentRequired := isConsentRequired prevState in
    let preferences :=
      mergePreferences destinations existingPreferences newPreferences in
    '(destinationPreferences, customPreferences, preferences) ←
       match mapCustomPreferences props with
       | Some mapCustomPreferences =>
           custom ← call (mapCustomPreferences destinations preferences);
           let destinationPreferences := mapped_destinationPreferences custom in
           match mapped_customPreferences custom with
           | Some customPreferences =>
               mret (destinationPreferences, Some customPreferences, customPreferences)
           | None =>
               mret (destinationPreferences, Some preferences, preferences)
           end
       | None => mret (preferences, None, preferences)
       end;
    let newDestinations :=
      destinationsWithoutConsent destinations (Some destinationPreferences) in
    let saved := {| save_destinationPreferences := destinationPreferences;
                    save_customPreferences := customPreferences;
                    save_cookieDomain := cookieDomain props |} in
    emit (EvSavePreferences saved);;
    call (savePreferences env saved);;
    let args := {| analytics_writeKey := writeKey props;
                   analytics_destinations := destinations;
                   analytics_destinationPreferences := destinationPreferences;
                   analytics_isConsentRequired := isConsentRequired;
                   analytics_shouldReload := shouldReload |} in
    emit (EvLoadAnalytics args);;
    call (conditionallyLoadAnalytics env args);;
    mret {| isLoading := isLoading prevState;
            destinations := destinations;
            newDestinations := newDestinations;
            preferences := Some preferences;
            isConsentRequired := isConsentRequired;
            state_destinationPreferences := Some destinationPreferences |}).

(** ** The engine over its lifetime *)

(** The three operations handed to the render callback. *)
Inductive Operation : Type :=
  | SetPreferences (newPreferences : NewPreferences)
  | ResetPreferences
  | SaveConsent (newPreferences : NewPreferences) (shouldReload : option bool).

Definition perform (props : Props) (env : Collaborators) (op : Operation) : M unit :=
  match op with
  | SetPreferences newPreferences => handleSetPreferences newPreferences
  | ResetPreferences => handleResetPreferences props env
  | SaveConsent newPreferences shouldReload =>
      handleSaveConsent props env newPreferences shouldReload
  end.

(** One operation as the lifetime runs it: its exception goes to whoever
    called the handler, and the engine goes on. *)
Definition attempt (props : Props) (env : Collaborators) (op : Operation) : M unit :=
  try_catch (perform props env op) (fun _ => mret tt).

(** A run of operations, each with the collaborators as they answer at that
    time. *)
Fixpoint lifetime (props : Props) (ops : list (Collaborators * Operation)) : M unit :=
  match ops with
  | [] => mret tt
  | (env, op) :: ops =>
      attempt props env op;;
      lifetime props ops
  end.

(** A freshly constructed component. *)
Definition mounted : Component := {| state := initialState; effects := [] |}.

(** ** Sample data *)

Definition dA : Destination := mkDestination "a" "Destination A".
Definition dB : Destination := mkDestination "b" "Destination B".

(** A destination whose id is the name of a member of [Object.prototype]. *)
Definition dConstructor : Destination := mkDestination "constructor" "Destination C".

(** Collaborators that never fail, over a given store content and catalog. *)
Definition quiet (stored : Preferences) (catalog : list Destination) : Collaborators :=
  {| loadPreferences := Resolved stored;
     savePreferences := fun _ => Resolved tt;
     fetchDestinations := fun _ => Resolved catalog;
     conditionallyLoadAnalytics := fun _ => Resolved tt;
     fetchSettlesFirst := false |}.

(** Only the write key is configured. *)
Definition plain : Props :=
  {| writeKey := "wk";
     otherWriteKeys := None;
     cookieDomain := None;
     initialPreferences := None;
     shouldRequireConsent := None;
     mapCustomPreferences := None;
     onError := None |}.

(** Initial preferences that declare a default of [true]. *)
Definition declared : Props :=
  {| writeKey := "wk";
     otherWriteKeys := None;
     cookieDomain := None;
     initialPreferences := Some {["a" := VBool true]};
     shouldRequireConsent := None;
     mapCustomPreferences := None;
     onError := None |}.

(** An adapter that consents to destination [a] whatever it is given and
    returns no custom preferences. *)
Definition consentToA (ds : list Destination) (prefs : CategoryPreferences)
    : Outcome Mapped :=
  Resolved {| mapped_destinationPreferences := {["a" := VBool true]};
              mapped_customPreferences := None |}.

(** An adapter that decides no destination at all. *)
Definition decideNothing (ds : list Destination) (prefs : CategoryPreferences)
    : Outcome Mapped :=
  Resolved {| mapped_destinationPreferences := ∅;
              mapped_customPreferences := None |}.

Definition withAdapter
    (adapter : list Destination -> CategoryPreferences -> Outcome Mapped)
    (props : Props) : Props :=
  {| writeKey := writeKey props;
     otherWriteKeys := otherWriteKeys props;
     cookieDomain := cookieDomain props;
     initialPreferences := initialPreferences props;
     shouldRequireConsent := shouldRequireConsent props;
     mapCustomPreferences := Some adapter;
     onError := onError props |}.

(** A store that holds no record, and one that holds [{a: true}] as the
    destination-level preferences. *)
Definition noRecord : Preferences :=
  {| loaded_destinationPreferences := None; loaded_customPreferences := None |}.
Definition consentedA : Preferences :=
  {| loaded_destinationPreferences := Some {["a" := VBool true]};
     loaded_customPreferences := None |}.

(** ** Vocabulary of the statements *)

Definition rejects {A : Type} (o : Outcome A) : Prop := ∃ e, o = Rejected e.

(** The lookups that [initialise] joins. *)
Definition consentLookup (props : Props) : Outcome bool :=
  default (Resolved true) (shouldRequireConsent props).
Definition catalogLookup (props : Props) (env : Collaborators)
    : Outcome (list Destination) :=
  fetchDestinations env (writeKey props :: default [] (otherWriteKeys props)).

(** Collaborators and adapter that do not throw during a save. *)
Definition dependable (props : Props) (env : Collaborators) : Prop :=
  (∀ args, savePreferences env args = Resolved tt)
  ∧ (∀ args, conditionallyLoadAnalytics env args = Resolved tt)
  ∧ (∀ adapter ds prefs, mapCustomPreferences props = Some adapter →
       ∃ mapped, adapter ds prefs = Resolved mapped).

(** The destination-level mapping of the most recent store write among the
    effects, if any. *)
Definition lastSaved (effects : list Event) : option CategoryPreferences :=
  fold_left (fun acc ev =>
               match ev with
               | EvSavePreferences args => Some (save_destinationPreferences args)
               | _ => acc
               end) effects None.

(** The condition of line 161, the fresh-user branch. *)
Definition freshUser (props : Props) (stored : Preferences) : bool :=
  existsb truthy (values (default ∅ (initialPreferences props)))
  && forallb nullish (values (default ∅ (loaded_customPreferences stored))).

(** [newDestinations] is the diff of the catalog against the mapping that the
    last completed [saveConsent] published, or against [loaded] when none
    has. *)
Definition settled (loaded : CategoryPreferences) (s : State) : Prop :=
  newDestinations s
  = destinationsWithoutConsent (destinations s)
      (Some (default loaded (state_destinationPreferences s))).

(** ** Vocabulary of the further properties *)

Definition isStoreWrite (ev : Event) : bool :=
  match ev with
  | EvSavePreferences _ => true
  | _ => false
  end.

Definition isActivation (ev : Event) : bool :=
  match ev with
  | EvLoadAnalytics _ => true
  | _ => false
  end.

Definition isHandlerCall (ev : Event) : bool :=
  match ev with
  | EvOnError _ => true
  | _ => false
  end.

Definition isSaveConsent (step : Collaborators * Operation) : bool :=
  match step.2 with
  | SaveConsent _ _ => true
  | _ => false
  end.

(** Modelled from the spec: [./preferences] is not among the sources. A store
    with overwrite semantics answers the next [loadPreferences()] with the
    record that the last [savePreferences] gave it. *)
Definition persistedBy (saved : SaveArgs) : Preferences :=
  {| loaded_destinationPreferences := Some (save_destinationPreferences saved);
     loaded_customPreferences := save_customPreferences saved |}.

(** Collaborators whose analytics activation throws. *)
Definition analyticsDown (stored : Preferences) (catalog : list Destination)
    : Collaborators :=
  {| loadPreferences := Resolved stored;
     savePreferences := fun _ => Resolved tt;
     fetchDestinations := fun _ => Resolved catalog;
     conditionallyLoadAnalytics := fun _ => Rejected "blocked";
     fetchSettlesFirst := false |}.

(** An adapter that throws. *)
Definition brokenAdapter (ds : list Destination) (prefs : CategoryPreferences)
    : Outcome Mapped :=
  Rejected "adapter".

(** A store that holds custom preferences with a decision in them. *)
Definition customDecided : Preferences :=
  {| loaded_destinationPreferences := Some {["a" := VBool true]};
     loaded_customPreferences := Some {["marketing" := VBool false]} |}.

(** Unfolds the monad of the component. *)
Ltac unfold_engine :=
  unfold setStateWith, setState, try_catch, emit, call,
    mbind, M_bind, bind, mret, M_ret, ret in *.

(** The diff as the specification words it: the destinations whose id is not
    a key of the mapping. *)
Definition diff_by_key (D : list Destination) (P : CategoryPreferences)
    : list Destination :=
  List.filter (fun d => bool_decide (P !! id d = None)) D.

(** * Properties of the helpers *)

Section Diff.
Implicit Types (D : list Destination) (P : CategoryPreferences) (d : Destination).

Lemma get_undefined P k :
  get P k = VUndefined
  ↔ (P !! k = None ∧ inherited k = false) ∨ P !! k = Some VUndefined.
Proof.
  unfold get. destruct (P !! k) as [v|]; [|destruct (inherited k)].
  - split; [intros ->; by right | intros [[? _]| [= ->]]; done].
  - split; [done | by intros [[_ ?]|?]].
  - split; [by left | done].
Qed.

Lemma elem_of_destinationsWithoutConsent D P d :
  d ∈ destinationsWithoutConsent D (Some P) ↔ d ∈ D ∧ get P (id d) = VUndefined.
Proof.
  unfold destinationsWithoutConsent.
  rewrite list_elem_of_In, filter_In, <- list_elem_of_In, bool_decide_eq_true.
  reflexivity.
Qed.

Lemma destinationsWithoutConsent_filter D P :
  destinationsWithoutConsent D (Some P)
  = List.filter
      (fun d => bool_decide ((P !! id d = None ∧ inherited (id d) = false)
                             ∨ P !! id d = Some VUndefined)) D.
Proof.
  unfold destinationsWithoutConsent. apply filter_ext. intros d.
  apply bool_decide_ext, get_undefined.
Qed.

Lemma filter_sublist {A} (f : A → bool) (l : list A) : sublist (List.filter f l) l.
Proof.
  induction l as [|x l IH]; simpl; [constructor|].
  destruct (f x); by constructor.
Qed.
End Diff.

(** C10. Whether a destination [d] of [D] is in the diff is decided by the
    value stored under [d.id], not by the presence of the key: [d] is returned
    exactly when [P[d.id]] is [undefined]; a key that is present with the
    value [undefined] is undecided, a key bound to [null], [false] or [true]
    is decided. *)
Theorem C10_diff_decided_by_stored_value
    (D : list Destination) (P : CategoryPreferences) (d : Destination) :
  d ∈ D →
  (d ∈ destinationsWithoutConsent D (Some P) ↔ get P (id d) = VUndefined)
  ∧ (P !! id d = Some VUndefined → d ∈ destinationsWithoutConsent D (Some P))
  ∧ (P !! id d = Some VNull → d ∉ destinationsWithoutConsent D (Some P))
  ∧ (∀ b, P !! id d = Some (VBool b) → d ∉ destinationsWithoutConsent D (Some P)).
Proof.
  intros Hd. repeat split.
  - intros H. by apply elem_of_destinationsWithoutConsent in H as [_ H].
  - intros H. by apply elem_of_destinationsWithoutConsent.
  - intros H. apply elem_of_destinationsWithoutConsent. split; [done|].
    apply get_undefined. by right.
  - intros H [_ Hu]%elem_of_destinationsWithoutConsent.
    apply get_undefined in Hu as [[Hu _]|Hu]; congruence.
  - intros b H [_ Hu]%elem_of_destinationsWithoutConsent.
    apply get_undefined in Hu as [[Hu _]|Hu]; congruence.
Qed.

Lemma C10_witness :
  dA ∈ [dA; dB]
  ∧ dA ∈ destinationsWithoutConsent [dA; dB] (Some {["a" := VUndefined; "b" := VNull]})
  ∧ dB ∉ destinationsWithoutConsent [dA; dB] (Some {["a" := VUndefined; "b" := VNull]}).
Proof.
  assert (HA : dA ∈ [dA; dB]) by (apply list_elem_of_In; vm_compute; tauto).
  assert (HB : dB ∈ [dA; dB]) by (apply list_elem_of_In; vm_compute; tauto).
  split; [exact HA|]. split.
  - apply (C10_diff_decided_by_stored_value [dA; dB] _ dA HA). reflexivity.
  - apply (C10_diff_decided_by_stored_value [dA; dB] _ dB HB). reflexivity.
Defined.

(** C4, as stated, fails: a key that is present with the value [undefined]
    does not remove its destination from the diff. It also fails the other
    way round: an id that is no key of the mapping but names a member
    inherited from [Object.prototype] is removed from the diff. *)
Lemma C4_counterexample :
  destinationsWithoutConsent [dA] (Some {["a" := VUndefined]}) = [dA]
  ∧ diff_by_key [dA] {["a" := VUndefined]} = []
  ∧ destinationsWithoutConsent [dA] (Some {["a" := VUndefined]})
    ≠ diff_by_key [dA] {["a" := VUndefined]}
  ∧ destinationsWithoutConsent [dConstructor] (Some ∅) = []
  ∧ diff_by_key [dConstructor] ∅ = [dConstructor].
Proof. vm_compute. repeat split; discriminate. Qed.

(** C4, amended. For every destination sequence [D] and mapping [P] the diff
    is the order-preserving subsequence of the [d] in [D] whose id is a key
    of [P] bound to [undefined], or is not a key of [P] and not the name of a
    member inherited from [Object.prototype]; when [P] binds no key to
    [undefined] and no id of [D] is such a name, this is the subsequence of
    the [d] whose id is not a key of [P]; and the diff against an absent
    mapping is [D] unchanged. *)
Theorem C4_diff_completeness (D : list Destination) (P : CategoryPreferences) :
  destinationsWithoutConsent D (Some P)
    = List.filter
        (fun d => bool_decide ((P !! id d = None ∧ inherited (id d) = false)
                               ∨ P !! id d = Some VUndefined)) D
  ∧ sublist (destinationsWithoutConsent D (Some P)) D
  ∧ ((∀ k, P !! k ≠ Some VUndefined) →
     (∀ d, d ∈ D → inherited (id d) = false) →
       destinationsWithoutConsent D (Some P) = diff_by_key D P)
  ∧ destinationsWithoutConsent D None = D.
Proof.
  repeat split.
  - apply destinationsWithoutConsent_filter.
  - apply filter_sublist.
  - intros HP HD. unfold destinationsWithoutConsent, diff_by_key.
    apply filter_ext_in. intros d Hd%list_elem_of_In. apply bool_decide_ext.
    rewrite get_undefined. specialize (HP (id d)). specialize (HD d Hd). tauto.
Qed.

Lemma C4_witness :
  (∀ k, ({["a" := VBool true]} : CategoryPreferences) !! k ≠ Some VUndefined)
  ∧ (∀ d, d ∈ [dA; dB] → inherited (id d) = false)
  ∧ destinationsWithoutConsent [dA; dB] (Some {["a" := VBool true]})
    = diff_by_key [dA; dB] {["a" := VBool true]}.
Proof.
  assert (H : ∀ k, ({["a" := VBool true]} : CategoryPreferences) !! k ≠ Some VUndefined).
  { intros k. destruct (decide (k = "a")) as [->|Hk].
    - rewrite lookup_singleton_eq. discriminate.
    - rewrite lookup_singleton_ne by done. discriminate. }
  assert (HD : ∀ d, d ∈ [dA; dB] → inherited (id d) = false).
  { intros d [->|[->|Hd%elem_of_nil]%elem_of_cons]%elem_of_cons;
      [reflexivity | reflexivity | done]. }
  split; [exact H|]. split; [exact HD|].
  exact (proj1 (proj2 (proj2 (C4_diff_completeness [dA; dB] {["a" := VBool true]})))
           H HD).
Defined.

Section Merge.
Implicit Types (D : list Destination) (E N : CategoryPreferences).

(** The [reduce] of lines 261-266 from any accumulator. *)
Lemma lookup_broadcast (b : bool) D (acc : CategoryPreferences) (k : string) :
  fold_left (fun prefs destination => <[id destination := VBool b]> prefs) D acc !! k
  = if bool_decide (k ∈ id <$> D) then Some (VBool b) else acc !! k.
Proof.
  revert acc. induction D as [|d D IH]; intros acc; cbn [fold_left].
  - rewrite bool_decide_eq_false_2; [done | apply not_elem_of_nil].
  - rewrite IH, fmap_cons. destruct (decide (k ∈ id <$> D)) as [Hin|Hout].
    + rewrite !bool_decide_eq_true_2; [done | by right | done].
    + rewrite (bool_decide_eq_false_2 _ Hout).
      destruct (decide (id d = k)) as [<-|Hne].
      * rewrite lookup_insert_eq, bool_decide_eq_true_2; [done | by left].
      * rewrite lookup_insert_ne by done.
        rewrite bool_decide_eq_false_2; [done|].
        intros [?|?]%elem_of_cons; congruence.
Qed.

Lemma lookup_spread E N (k : string) :
  spread E N !! k = match N !! k with Some v => Some v | None => E !! k end.
Proof.
  unfold spread. rewrite lookup_union.
  destruct (N !! k), (E !! k); reflexivity.
Qed.
End Merge.

(** C5. For every destination sequence [D], existing mapping [E] and boolean
    [b], the merge with [b] binds every id of [D] to [b] and has no other key:
    its keys are exactly the ids of [D], whatever [E] held. *)
Theorem C5_broadcast_merge
    (D : list Destination) (E : CategoryPreferences) (b : bool) :
  (∀ k, mergePreferences D E (NPBoolean b) !! k
        = if bool_decide (k ∈ id <$> D) then Some (VBool b) else None)
  ∧ dom (mergePreferences D E (NPBoolean b)) = list_to_set (id <$> D)
  ∧ mergePreferences D E (NPBoolean b) = mergePreferences D ∅ (NPBoolean b).
Proof.
  assert (Hk : ∀ k, mergePreferences D E (NPBoolean b) !! k
        = if bool_decide (k ∈ id <$> D) then Some (VBool b) else None).
  { intros k. unfold mergePreferences. by rewrite lookup_broadcast, lookup_empty. }
  split; [exact Hk|]. split; [|reflexivity].
  apply set_eq. intros k. rewrite elem_of_dom, Hk, elem_of_list_to_set.
  case_bool_decide as Hin; split; intros Hk'; done.
Qed.

(** C6. For every [D], [E] and every [newPreferences] that is not a boolean,
    the merge is the shallow merge of [newPreferences] over [E]: a key of
    [N] has the value of [N], any other key keeps what [E] has for it; an
    absent [newPreferences] gives [E] back; and
    [merge(D, {a: true}, {b: false}) = {a: true, b: false}]. *)
Theorem C6_incremental_merge
    (D : list Destination) (E N : CategoryPreferences) :
  (∀ k, mergePreferences D E (NPObject N) !! k
        = match N !! k with Some v => Some v | None => E !! k end)
  ∧ mergePreferences D E NPUndefined = E
  ∧ mergePreferences D {["a" := VBool true]} (NPObject {["b" := VBool false]})
    = {["a" := VBool true; "b" := VBool false]}
  ∧ mergePreferences D {["a" := VBool true]} NPUndefined = {["a" := VBool true]}.
Proof.
  split; [intros k; apply lookup_spread|].
  assert (Hu : ∀ E', mergePreferences D E' NPUndefined = E').
  { intros E'. unfold mergePreferences, spread. apply (left_id ∅ (∪)). }
  split; [apply Hu|]. split; [|apply Hu].
  unfold mergePreferences. vm_compute. reflexivity.
Qed.

(** * Properties of the engine *)

Section Engine.
Implicit Types (props : Props) (env : Collaborators) (c : Component).

(** What a completed initialisation has published. *)
Lemma initialise_resolved props env c c' :
  initialise props env c = (Resolved tt, c') →
  ∃ stored isRequired catalog,
    loadPreferences env = Resolved stored
    ∧ promise_all (fetchSettlesFirst env) (consentLookup props) (catalogLookup props env)
      = Resolved (isRequired, catalog)
    ∧ isLoading (state c') = false
    ∧ destinations (state c') = catalog
    ∧ newDestinations (state c')
      = destinationsWithoutConsent catalog
          (Some (default ∅ (loaded_destinationPreferences stored)))
    ∧ preferences (state c')
      = match mapCustomPreferences props with
        | Some _ =>
            Some (default ∅ (or_else (loaded_customPreferences stored)
                                     (initialPreferences props)))
        | None => Some (default ∅ (loaded_destinationPreferences stored))
        end
    ∧ isConsentRequired (state c') = isRequired
    ∧ state_destinationPreferences (state c') = state_destinationPreferences (state c).
Proof.
  unfold initialise, consentLookup, catalogLookup. unfold_engine.
  intros H.
  destruct (loadPreferences env) as [stored|]; [|discriminate].
  destruct (promise_all _ _ _) as [[isRequired catalog]|]; [|discriminate].
  exists stored, isRequired, catalog.
  destruct (mapCustomPreferences props) as [adapter|].
  - destruct (_ && _).
    + destruct (adapter _ _) as [mapped|]; [|discriminate].
      destruct (conditionallyLoadAnalytics env _); [|discriminate].
      injection H as <-. by repeat split.
    + destruct (conditionallyLoadAnalytics env _); [|discriminate].
      injection H as <-. by repeat split.
  - destruct (conditionallyLoadAnalytics env _); [|discriminate].
    injection H as <-. by repeat split.
Qed.

(** An initialisation that fails has not touched the state. *)
Lemma initialise_rejected props env c e c' :
  initialise props env c = (Rejected e, c') → state c' = state c.
Proof.
  unfold initialise. unfold_engine. intros H.
  destruct (loadPreferences env) as [stored|]; [|by injection H as _ <-].
  destruct (promise_all _ _ _) as [[isRequired catalog]|]; [|by injection H as _ <-].
  destruct (mapCustomPreferences props) as [adapter|].
  - destruct (_ && _).
    + destruct (adapter _ _) as [mapped|]; [|by injection H as _ <-].
      destruct (conditionallyLoadAnalytics env _); [discriminate|].
      by injection H as _ <-.
    + destruct (conditionallyLoadAnalytics env _); [discriminate|].
      by injection H as _ <-.
  - destruct (conditionallyLoadAnalytics env _); [discriminate|].
    by injection H as _ <-.
Qed.

Lemma lastSaved_after_save (l : list Event) saved args :
  lastSaved (l ++ [EvSavePreferences saved; EvLoadAnalytics args])
  = Some (save_destinationPreferences saved).
Proof. unfold lastSaved. by rewrite fold_left_app. Qed.

(** What a save does when nothing throws. *)
Lemma handleSaveConsent_dependable props env newPreferences shouldReload c :
  dependable props env →
  ∃ c' saved args,
    handleSaveConsent props env newPreferences shouldReload c = (Resolved tt, c')
    ∧ effects c' = effects c ++ [EvSavePreferences saved; EvLoadAnalytics args]
    ∧ analytics_destinationPreferences args = save_destinationPreferences saved
    ∧ analytics_shouldReload args = shouldReload
    ∧ state_destinationPreferences (state c')
      = Some (save_destinationPreferences saved)
    ∧ newDestinations (state c')
      = destinationsWithoutConsent (destinations (state c))
          (Some (save_destinationPreferences saved))
    ∧ destinations (state c') = destinations (state c)
    ∧ (mapCustomPreferences props = None →
         save_destinationPreferences saved
         = mergePreferences (destinations (state c))
             (default ∅ (preferences (state c))) newPreferences
         ∧ preferences (state c') = Some (save_destinationPreferences saved)).
Proof.
  intros (Hsave & Hanalytics & Hadapter).
  unfold handleSaveConsent. unfold_engine.
  destruct (mapCustomPreferences props) as [adapter|] eqn:Hprops.
  - destruct (Hadapter adapter (destinations (state c))
                (mergePreferences (destinations (state c))
                   (default ∅ (preferences (state c))) newPreferences) eq_refl)
      as [mapped ->].
    destruct (mapped_customPreferences mapped) as [custom|];
      rewrite Hsave, Hanalytics; simpl; rewrite <- app_assoc;
      do 3 eexists; repeat split; try reflexivity; discriminate.
  - rewrite Hsave, Hanalytics. simpl. rewrite <- app_assoc.
    do 3 eexists. repeat split; reflexivity.
Qed.

(** With an adapter, what is written to the store is what the adapter
    returns for the catalog and the merged preferences. *)
Lemma handleSaveConsent_adapter props env newPreferences shouldReload c adapter :
  dependable props env →
  mapCustomPreferences props = Some adapter →
  let merged := mergePreferences (destinations (state c))
                  (default ∅ (preferences (state c))) newPreferences in
  ∃ mapped c' args,
    adapter (destinations (state c)) merged = Resolved mapped
    ∧ handleSaveConsent props env newPreferences shouldReload c = (Resolved tt, c')
    ∧ effects c'
      = effects c
        ++ [EvSavePreferences
              {| save_destinationPreferences := mapped_destinationPreferences mapped;
                 save_customPreferences :=
                   Some (default merged (mapped_customPreferences mapped));
                 save_cookieDomain := cookieDomain props |};
            EvLoadAnalytics args]
    ∧ preferences (state c')
      = Some (default merged (mapped_customPreferences mapped)).
Proof.
  intros (Hsave & Hanalytics & Hadapter) Hprops merged.
  destruct (Hadapter adapter (destinations (state c)) merged Hprops)
    as [mapped Hmapped].
  exists mapped. unfold handleSaveConsent. unfold_engine.
  rewrite Hprops. fold merged. rewrite Hmapped.
  destruct (mapped_customPreferences mapped) as [custom|];
    rewrite Hsave, Hanalytics; simpl; rewrite <- app_assoc;
    do 2 eexists; repeat split; reflexivity.
Qed.

(** A save that throws leaves the state as it was; one that returns has
    recomputed the diff against the mapping it publishes. *)
Lemma handleSaveConsent_state props env newPreferences shouldReload c r c' :
  handleSaveConsent props env newPreferences shouldReload c = (r, c') →
  match r with
  | Rejected _ => state c' = state c
  | Resolved _ =>
      ∃ published,
        state_destinationPreferences (state c') = Some published
        ∧ newDestinations (state c')
          = destinationsWithoutConsent (destinations (state c)) (Some published)
        ∧ destinations (state c') = destinations (state c)
        ∧ isLoading (state c') = isLoading (state c)
        ∧ isConsentRequired (state c') = isConsentRequired (state c)
  end.
Proof.
  unfold handleSaveConsent. unfold_engine.
  destruct (mapCustomPreferences props) as [adapter|].
  - destruct (adapter _ _) as [mapped|]; [|by intros [= <- <-]].
    destruct (mapped_customPreferences mapped) as [custom|];
      (destruct (savePreferences env _); [|by intros [= <- <-]]);
      (destruct (conditionallyLoadAnalytics env _); intros [= <- <-]);
      try done; by eexists.
  - destruct (savePreferences env _); [|by intros [= <- <-]].
    destruct (conditionallyLoadAnalytics env _); intros [= <- <-];
      try done; by eexists.
Qed.

(** One operation of the lifetime. *)
Lemma attempt_spec (loaded : CategoryPreferences) props env op c :
  ∃ c',
    attempt props env op c = (Resolved tt, c')
    ∧ isLoading (state c') = isLoading (state c)
    ∧ destinations (state c') = destinations (state c)
    ∧ isConsentRequired (state c') = isConsentRequired (state c)
    ∧ (settled loaded (state c) → settled loaded (state c'))
    ∧ (dependable props env →
         state_destinationPreferences (state c) = lastSaved (effects c) →
         state_destinationPreferences (state c') = lastSaved (effects c')).
Proof.
  destruct op as [newPreferences| |newPreferences shouldReload].
  - eexists. split; [reflexivity|]. by repeat split.
  - unfold attempt, perform, handleResetPreferences. unfold_engine.
    destruct (loadPreferences env) as [stored|];
      (eexists; split; [reflexivity|]; by repeat split).
  - unfold attempt, perform.
    destruct (handleSaveConsent props env newPreferences shouldReload c)
      as [r c1] eqn:Hrun.
    pose proof (handleSaveConsent_state _ _ _ _ _ _ _ Hrun) as Hstate.
    unfold try_catch. rewrite Hrun. destruct r as [[]|e].
    + destruct Hstate as (published & Hp & Hnew & Hd & Hl & Hr).
      eexists. split; [reflexivity|]. repeat split; try done.
      * intros _. unfold settled. by rewrite Hp, Hnew, Hd.
      * intros Hdep _.
        destruct (handleSaveConsent_dependable props env newPreferences
                    shouldReload c Hdep)
          as (c2 & saved & args & Hrun' & Heff & _ & _ & Hpub & _).
        rewrite Hrun in Hrun'. injection Hrun' as <-.
        by rewrite Hpub, Heff, lastSaved_after_save.
    + eexists. split; [reflexivity|]. simpl. rewrite Hstate.
      repeat split; try done.
      intros Hdep _.
      destruct (handleSaveConsent_dependable props env newPreferences
                  shouldReload c Hdep) as (c2 & ? & ? & Hrun' & _).
      rewrite Hrun in Hrun'. discriminate.
Qed.

(** The run of a lifetime never throws, and keeps what its operations
    keep. *)
Lemma lifetime_spec (loaded : CategoryPreferences) props ops c :
  ∃ c',
    lifetime props ops c = (Resolved tt, c')
    ∧ isLoading (state c') = isLoading (state c)
    ∧ destinations (state c') = destinations (state c)
    ∧ isConsentRequired (state c') = isConsentRequired (state c)
    ∧ (settled loaded (state c) → settled loaded (state c'))
    ∧ (Forall (fun step => dependable props step.1) ops →
         state_destinationPreferences (state c) = lastSaved (effects c) →
         state_destinationPreferences (state c') = lastSaved (effects c')).
Proof.
  revert c. induction ops as [|[env op] ops IH]; intros c.
  - exists c. by repeat split.
  - destruct (attempt_spec loaded props env op c)
      as (c1 & Hrun & Hl & Hd & Hr & Hs & Hp).
    destruct (IH c1) as (c2 & Hrun2 & Hl2 & Hd2 & Hr2 & Hs2 & Hp2).
    exists c2. split.
    { cbn [lifetime]. unfold mbind, M_bind, bind. by rewrite Hrun. }
    repeat split; try congruence.
    + auto.
    + intros Hall Hlast. inversion Hall; subst. auto.
Qed.
End Engine.

(** C9. For every input, [setPreferences] replaces [preferences] with the
    merge of the input over the current preferences and does nothing else:
    it does not throw, it has no effect on the store or on analytics, and
    [newDestinations], [destinations], [isConsentRequired] and [isLoading]
    are as before. *)
Theorem C9_setPreferences_frame (newPreferences : NewPreferences) (c : Component) :
  ∃ c',
    handleSetPreferences newPreferences c = (Resolved tt, c')
    ∧ preferences (state c')
      = Some (mergePreferences (destinations (state c))
                (default ∅ (preferences (state c))) newPreferences)
    ∧ effects c' = effects c
    ∧ newDestinations (state c') = newDestinations (state c)
    ∧ destinations (state c') = destinations (state c)
    ∧ isConsentRequired (state c') = isConsentRequired (state c)
    ∧ isLoading (state c') = isLoading (state c)
    ∧ state_destinationPreferences (state c')
      = state_destinationPreferences (state c).
Proof. eexists. split; [reflexivity|]. by repeat split. Qed.

(** C2, at the failing input: no adapter, a store without a record and the
    initial preferences [{a: true}]. Line 143 has turned the missing record
    into [{}], which line 167 finds truthy, so the engine exposes [{}] and not
    the initial preferences. *)
Theorem C2_initial_preferences_not_used :
  let run := initialise declared (quiet noRecord [dA; dB]) mounted in
  run.1 = Resolved tt
  ∧ initialPreferences declared = Some {["a" := VBool true]}
  ∧ preferences (state run.2) = Some ∅
  ∧ preferences (state run.2) ≠ initialPreferences declared.
Proof. vm_compute. by repeat split. Qed.

(** Without an adapter the engine exposes the persisted destination-level
    preferences when there are some, and the empty mapping when there are
    none, whatever the initial preferences. *)
Lemma initialise_exposes_persisted props env c c' stored :
  mapCustomPreferences props = None →
  loadPreferences env = Resolved stored →
  initialise props env c = (Resolved tt, c') →
  preferences (state c')
  = Some (default ∅ (loaded_destinationPreferences stored)).
Proof.
  intros Hnone Hload Hrun.
  destruct (initialise_resolved _ _ _ _ Hrun)
    as (stored' & ? & ? & Hload' & _ & _ & _ & _ & Hprefs & _).
  rewrite Hnone in Hprefs. congruence.
Qed.

(** C3, at the failing input: from the same store without a record and the
    same initial preferences [{a: true}], with no adapter, [resetPreferences]
    falls back to the initial preferences and initialisation does not. *)
Theorem C3_reset_differs_from_initialise :
  let initialised := initialise declared (quiet noRecord [dA; dB]) mounted in
  let reset :=
    handleResetPreferences declared (quiet noRecord [dA; dB]) initialised.2 in
  initialised.1 = Resolved tt
  ∧ reset.1 = Resolved tt
  ∧ preferences (state initialised.2) = Some ∅
  ∧ preferences (state reset.2) = Some {["a" := VBool true]}
  ∧ preferences (state reset.2) ≠ preferences (state initialised.2).
Proof. vm_compute. by repeat split. Qed.

(** Where the two resolutions agree: with an adapter, as soon as the store
    holds custom preferences or initial preferences are given (React's
    default is [{}]); without one, as soon as the store holds
    destination-level preferences. *)
Lemma reset_agrees_with_initialise props env c c1 stored :
  loadPreferences env = Resolved stored →
  match mapCustomPreferences props with
  | Some _ =>
      is_Some (or_else (loaded_customPreferences stored) (initialPreferences props))
  | None => is_Some (loaded_destinationPreferences stored)
  end →
  initialise props env c = (Resolved tt, c1) →
  ∃ c2,
    handleResetPreferences props env c1 = (Resolved tt, c2)
    ∧ preferences (state c2) = preferences (state c1).
Proof.
  intros Hload Hsome Hrun.
  destruct (initialise_resolved _ _ _ _ Hrun)
    as (stored' & ? & ? & Hload' & _ & _ & _ & _ & Hprefs & _).
  assert (stored' = stored) as -> by congruence.
  unfold handleResetPreferences. unfold_engine. rewrite Hload. simpl.
  eexists. split; [reflexivity|]. simpl. rewrite Hprefs.
  destruct (mapCustomPreferences props); destruct Hsome as [found Hfound];
    by rewrite Hfound.
Qed.

(** With an adapter configured and the props as React hands them over, the
    two resolutions always agree. *)
Lemma reset_agrees_under_adapter props env c c1 stored :
  is_Some (mapCustomPreferences props) →
  loadPreferences env = Resolved stored →
  initialise (withDefaultProps props) env c = (Resolved tt, c1) →
  ∃ c2,
    handleResetPreferences (withDefaultProps props) env c1 = (Resolved tt, c2)
    ∧ preferences (state c2) = preferences (state c1).
Proof.
  intros [adapter Hadapter] Hload.
  apply (reset_agrees_with_initialise _ _ _ _ stored Hload).
  simpl. rewrite Hadapter.
  destruct (loaded_customPreferences stored), (initialPreferences props); by eexists.
Qed.

(** C1, as stated, fails in two places. In the fresh-user branch the
    adapter's output [{a: true}] becomes the working destination-level
    preferences (it is what analytics is activated with), yet
    [newDestinations] still holds [a]: the diff was taken at line 150, before
    the adapter ran. And after [saveConsent({a: undefined})] the mapping
    handed to the store has the key [a], yet [newDestinations] holds [a].
    Conversely, with an empty store a destination with the id [constructor]
    is not in [newDestinations] although no mapping has that key. *)
Lemma C1_counterexample :
  (let run :=
     initialise (withAdapter consentToA declared) (quiet noRecord [dA]) mounted in
   run.1 = Resolved tt
   ∧ lastSaved (effects run.2) = None
   ∧ (∃ args, effects run.2 = [EvLoadAnalytics args]
        ∧ analytics_destinationPreferences args = {["a" := VBool true]})
   ∧ newDestinations (state run.2) = [dA]
   ∧ diff_by_key (destinations (state run.2)) {["a" := VBool true]} = []
   ∧ newDestinations (state run.2)
     ≠ diff_by_key (destinations (state run.2)) {["a" := VBool true]})
  ∧
  (let initialised := initialise plain (quiet noRecord [dA]) mounted in
   let run :=
     handleSaveConsent plain (quiet noRecord [dA])
       (NPObject {["a" := VUndefined]}) None initialised.2 in
   run.1 = Resolved tt
   ∧ lastSaved (effects run.2) = Some {["a" := VUndefined]}
   ∧ newDestinations (state run.2) = [dA]
   ∧ newDestinations (state run.2)
     ≠ diff_by_key (destinations (state run.2)) {["a" := VUndefined]})
  ∧
  (let run := initialise plain (quiet noRecord [dConstructor]) mounted in
   run.1 = Resolved tt
   ∧ lastSaved (effects run.2) = None
   ∧ newDestinations (state run.2) = []
   ∧ diff_by_key (destinations (state run.2)) ∅ = [dConstructor]).
Proof.
  split; [|split].
  - vm_compute. repeat split; try discriminate. by eexists.
  - vm_compute. repeat split; discriminate.
  - vm_compute. by repeat split.
Qed.

(** C1, amended. From the moment initialisation has completed, and after any
    run of [setPreferences], [resetPreferences] and [saveConsent],
    [newDestinations] is exactly the subsequence of [destinations] whose id
    is a key bound to [undefined], or is not a key and not the name of a
    member inherited from [Object.prototype], of: the destination-level
    mapping published by the last [saveConsent] that completed, or, while
    there is none, the mapping loaded from the store at initialisation (the
    empty mapping for a missing record), in the fresh-user branch too, where
    the adapter's output is not diffed against. When no save throws, the
    published mapping is the one of the most recent store write. *)
Theorem C1_newDestinations_invariant
    (props : Props) (env : Collaborators) (stored : Preferences)
    (ops : list (Collaborators * Operation)) (c1 : Component) :
  initialise props env mounted = (Resolved tt, c1) →
  loadPreferences env = Resolved stored →
  ∃ c2,
    lifetime props ops c1 = (Resolved tt, c2)
    ∧ destinations (state c2) = destinations (state c1)
    ∧ (let reference :=
         default (default ∅ (loaded_destinationPreferences stored))
                 (state_destinationPreferences (state c2)) in
       newDestinations (state c2)
       = List.filter
           (fun d => bool_decide ((reference !! id d = None
                                   ∧ inherited (id d) = false)
                                  ∨ reference !! id d = Some VUndefined))
           (destinations (state c2)))
    ∧ (Forall (fun step => dependable props step.1) ops →
         state_destinationPreferences (state c2) = lastSaved (effects c2)).
Proof.
  intros Hrun Hload.
  destruct (initialise_resolved _ _ _ _ Hrun)
    as (stored' & ? & ? & Hload' & _ & _ & Hd & Hnew & _ & _ & Hpub).
  assert (stored' = stored) as -> by congruence.
  set (loaded := default ∅ (loaded_destinationPreferences stored)).
  destruct (lifetime_spec loaded props ops c1)
    as (c2 & Hlife & _ & Hd2 & _ & Hsettled & Hlast).
  exists c2. repeat split; try done.
  - cbn zeta. rewrite <- destinationsWithoutConsent_filter. apply Hsettled.
    unfold settled. rewrite Hpub, Hnew, Hd. reflexivity.
  - intros Hall. apply Hlast; [done|].
    rewrite Hpub. unfold initialise in Hrun. unfold_engine.
    rewrite Hload in Hrun.
    destruct (promise_all _ _ _) as [[? ?]|]; [|discriminate].
    destruct (mapCustomPreferences props) as [adapter|].
    + destruct (_ && _).
      * destruct (adapter _ _); [|discriminate].
        destruct (conditionallyLoadAnalytics env _); [|discriminate].
        by injection Hrun as <-.
      * destruct (conditionallyLoadAnalytics env _); [|discriminate].
        by injection Hrun as <-.
    + destruct (conditionallyLoadAnalytics env _); [|discriminate].
      by injection Hrun as <-.
Qed.

Lemma C1_witness :
  let env := quiet consentedA [dA; dB] in
  let c1 := (initialise plain env mounted).2 in
  ∃ c2,
    lifetime plain [(env, SaveConsent (NPBoolean true) None)] c1 = (Resolved tt, c2)
    ∧ newDestinations (state c2) = [].
Proof.
  intros env c1.
  destruct (C1_newDestinations_invariant plain env consentedA
              [(env, SaveConsent (NPBoolean true) None)] c1 eq_refl eq_refl)
    as (c2 & Hlife & _ & Hnew & _).
  exists c2. split; [exact Hlife|].
  assert (c2 = (lifetime plain [(env, SaveConsent (NPBoolean true) None)] c1).2)
    as Hc2 by (by rewrite Hlife).
  rewrite Hnew, Hc2. vm_compute. reflexivity.
Defined.

(** C7, as stated, fails when an adapter is configured: the diff is taken
    against the adapter's destination-level output, and an adapter that
    decides nothing for [a] leaves [a] in [newDestinations] after
    [saveConsent({a: true})]. *)
Lemma C7_counterexample :
  let props := withAdapter decideNothing plain in
  let initialised := initialise props (quiet noRecord [dA]) mounted in
  let run :=
    handleSaveConsent props (quiet noRecord [dA])
      (NPObject {["a" := VBool true]}) None initialised.2 in
  initialised.1 = Resolved tt
  ∧ newDestinations (state initialised.2) = [dA]
  ∧ run.1 = Resolved tt
  ∧ lastSaved (effects run.2) = Some ∅
  ∧ newDestinations (state run.2) = [dA].
Proof. vm_compute. by repeat split. Qed.

(** C7, amended. A [saveConsent] during which nothing throws writes the
    freshly resolved destination-level preferences to the store, activates
    analytics with them, and sets [newDestinations] to the diff of the catalog
    against them. When no adapter is configured these are the merged
    preferences, so after [saveConsent({x: true})] no destination with id [x]
    is in [newDestinations]. When an adapter is configured they are the
    destination-level output of the adapter for the catalog and the merged
    preferences, so a destination stays in [newDestinations] exactly when
    that output leaves it undecided. And in the no-adapter state with
    destinations [a], [b] and preferences [{a: true}], [saveConsent(true)]
    yields [preferences = {a: true, b: true}], [newDestinations = []] and a
    store write with [destinationPreferences = {a: true, b: true}]. *)
Theorem C7_saveConsent_recomputes_diff :
  (∀ (props : Props) (env : Collaborators) (newPreferences : NewPreferences)
     (shouldReload : option bool) (c : Component),
     dependable props env →
     ∃ c' saved args,
       handleSaveConsent props env newPreferences shouldReload c = (Resolved tt, c')
       ∧ effects c' = effects c ++ [EvSavePreferences saved; EvLoadAnalytics args]
       ∧ analytics_destinationPreferences args = save_destinationPreferences saved
       ∧ newDestinations (state c')
         = destinationsWithoutConsent (destinations (state c))
             (Some (save_destinationPreferences saved))
       ∧ (mapCustomPreferences props = None →
            save_destinationPreferences saved
            = mergePreferences (destinations (state c))
                (default ∅ (preferences (state c))) newPreferences
            ∧ preferences (state c') = Some (save_destinationPreferences saved)
            ∧ ∀ N x d,
                newPreferences = NPObject N →
                N !! x = Some (VBool true) →
                d ∈ newDestinations (state c') → id d ≠ x)
       ∧ (∀ adapter,
            mapCustomPreferences props = Some adapter →
            ∃ mapped,
              adapter (destinations (state c))
                (mergePreferences (destinations (state c))
                   (default ∅ (preferences (state c))) newPreferences)
              = Resolved mapped
              ∧ save_destinationPreferences saved
                = mapped_destinationPreferences mapped
              ∧ ∀ d, d ∈ newDestinations (state c')
                     ↔ d ∈ destinations (state c)
                       ∧ get (mapped_destinationPreferences mapped) (id d)
                         = VUndefined))
  ∧ (let env := quiet consentedA [dA; dB] in
     let initialised := initialise plain env mounted in
     let run := handleSaveConsent plain env (NPBoolean true) None initialised.2 in
     initialised.1 = Resolved tt
     ∧ destinations (state initialised.2) = [dA; dB]
     ∧ preferences (state initialised.2) = Some {["a" := VBool true]}
     ∧ newDestinations (state initialised.2) = [dB]
     ∧ run.1 = Resolved tt
     ∧ preferences (state run.2) = Some {["a" := VBool true; "b" := VBool true]}
     ∧ newDestinations (state run.2) = []
     ∧ ∃ saved args,
         effects run.2
         = effects initialised.2 ++ [EvSavePreferences saved; EvLoadAnalytics args]
         ∧ save_destinationPreferences saved
           = {["a" := VBool true; "b" := VBool true]}).
Proof.
  split.
  - intros props env newPreferences shouldReload c Hdep.
    destruct (handleSaveConsent_dependable props env newPreferences shouldReload c Hdep)
      as (c' & saved & args & Hrun & Heff & Hargs & _ & _ & Hnew & _ & Hplain).
    exists c', saved, args. do 4 (split; [done|]). split.
    + intros Hnone. destruct (Hplain Hnone) as [Hsaved Hprefs].
      do 2 (split; [done|]).
      intros N x d -> HN Hd Hid.
      rewrite Hnew, Hsaved in Hd.
      apply elem_of_destinationsWithoutConsent in Hd as [_ Hd].
      apply get_undefined in Hd. unfold mergePreferences in Hd.
      rewrite lookup_spread, Hid, HN in Hd.
      destruct Hd as [[? _]|?]; discriminate.
    + intros adapter Hadapter.
      destruct (handleSaveConsent_adapter props env newPreferences shouldReload c
                  adapter Hdep Hadapter)
        as (mapped & c2 & args2 & Hmapped & Hrun2 & Heff2 & _).
      rewrite Hrun in Hrun2. injection Hrun2 as <-.
      rewrite Heff in Heff2. apply app_inv_head in Heff2.
      injection Heff2 as -> _.
      exists mapped. split; [exact Hmapped|]. split; [reflexivity|].
      intros d. rewrite Hnew. apply elem_of_destinationsWithoutConsent.
  - vm_compute. repeat split. by do 2 eexists.
Qed.

Lemma C7_witness :
  let env := quiet noRecord [dA; dB] in
  let c := (initialise plain env mounted).2 in
  dependable plain env
  ∧ dependable (withAdapter consentToA plain) env
  ∧ (∃ c',
       handleSaveConsent plain env (NPObject {["a" := VBool true]}) None c
       = (Resolved tt, c')
       ∧ ∀ d, d ∈ newDestinations (state c') → id d ≠ "a")
  ∧ (∃ c' saved args,
       handleSaveConsent (withAdapter consentToA plain) env
         (NPObject {["b" := VBool true]}) None c = (Resolved tt, c')
       ∧ effects c' = effects c ++ [EvSavePreferences saved; EvLoadAnalytics args]
       ∧ save_destinationPreferences saved = {["a" := VBool true]}).
Proof.
  intros env c.
  assert (Hdep : dependable plain env).
  { repeat split. intros adapter ds prefs H. discriminate H. }
  assert (Hdep' : dependable (withAdapter consentToA plain) env).
  { repeat split. intros adapter ds prefs [= <-]. by eexists. }
  split; [exact Hdep|]. split; [exact Hdep'|]. split.
  - destruct (proj1 C7_saveConsent_recomputes_diff plain env
                (NPObject {["a" := VBool true]}) None c Hdep)
      as (c' & saved & args & Hrun & _ & _ & _ & Hplain & _).
    exists c'. split; [exact Hrun|].
    intros d Hd. destruct (Hplain eq_refl) as (_ & _ & Hx).
    exact (Hx {["a" := VBool true]} "a" d eq_refl eq_refl Hd).
  - destruct (proj1 C7_saveConsent_recomputes_diff (withAdapter consentToA plain) env
                (NPObject {["b" := VBool true]}) None c Hdep')
      as (c' & saved & args & Hrun & Heff & _ & _ & _ & Hadapter).
    exists c', saved, args. split; [exact Hrun|]. split; [exact Heff|].
    destruct (Hadapter consentToA eq_refl) as (mapped & Hmapped & -> & _).
    injection Hmapped as <-. reflexivity.
Defined.

Section Failure.
Implicit Types (props : Props) (env : Collaborators) (c : Component).

(** The failures of steps 1, 2, 4 and 5 each make [initialise] fail. *)
Lemma initialise_fails props env c :
  rejects (loadPreferences env)
  ∨ rejects (consentLookup props)
  ∨ rejects (catalogLookup props env)
  ∨ (∃ adapter stored,
       mapCustomPreferences props = Some adapter
       ∧ loadPreferences env = Resolved stored
       ∧ freshUser props stored = true
       ∧ ∀ ds prefs, rejects (adapter ds prefs))
  ∨ (∀ args, rejects (conditionallyLoadAnalytics env args)) →
  ∃ e c1, initialise props env c = (Rejected e, c1).
Proof.
  unfold initialise, consentLookup, catalogLookup, freshUser. unfold_engine.
  intros Hcause.
  destruct (loadPreferences env) as [stored|e0] eqn:Hload; [|by eauto].
  destruct Hcause as [[e He]|Hcause]; [discriminate|].
  destruct (promise_all _ _ _) as [[isRequired catalog]|e0] eqn:Hjoin; [|by eauto].
  unfold promise_all in Hjoin.
  destruct Hcause as [[e He]|Hcause].
  { rewrite He in Hjoin. by destruct (fetchDestinations env _). }
  destruct Hcause as [[e He]|Hcause].
  { rewrite He in Hjoin. by destruct (default (Resolved true) _). }
  destruct Hcause as [(adapter & stored' & Hprops & [= <-] & Hfresh & Hthrows)|Hcause].
  { rewrite Hprops, Hfresh. destruct (Hthrows catalog
      (default ∅ (or_else (loaded_customPreferences stored)
                          (initialPreferences props)))) as [e ->]. by eauto. }
  destruct (mapCustomPreferences props) as [adapter|].
  - destruct (_ && _).
    + destruct (adapter _ _) as [mapped|]; [|by eauto].
      destruct (Hcause {| analytics_writeKey := writeKey props;
                          analytics_destinations := catalog;
                          analytics_destinationPreferences :=
                            mapped_destinationPreferences mapped;
                          analytics_isConsentRequired := isRequired;
                          analytics_shouldReload := None |}) as [e ->].
      by eauto.
    + destruct (Hcause {| analytics_writeKey := writeKey props;
                          analytics_destinations := catalog;
                          analytics_destinationPreferences :=
                            default ∅ (loaded_destinationPreferences stored);
                          analytics_isConsentRequired := isRequired;
                          analytics_shouldReload := None |}) as [e ->].
      by eauto.
  - destruct (Hcause {| analytics_writeKey := writeKey props;
                        analytics_destinations := catalog;
                        analytics_destinationPreferences :=
                          default ∅ (loaded_destinationPreferences stored);
                        analytics_isConsentRequired := isRequired;
                        analytics_shouldReload := None |}) as [e ->].
    by eauto.
Qed.

(** A component that is loading stays so, and renders nothing, whatever is
    called on it. *)
Lemma loading_forever props ops c :
  isLoading (state c) = true →
  ∃ c', lifetime props ops c = (Resolved tt, c')
        ∧ isLoading (state c') = true
        ∧ render (state c') = None.
Proof.
  intros Hloading.
  destruct (lifetime_spec ∅ props ops c) as (c' & Hrun & Hl & _).
  exists c'. split; [done|]. rewrite Hloading in Hl.
  split; [done|]. unfold render. by rewrite Hl.
Qed.
End Failure.

(** C8. A rejected lookup, like a failure of any other step, makes the
    initialisation fail. When it fails with [e] and an error handler is
    configured, [e] is caught and handed to the handler, whose outcome is the
    outcome of mounting; the state is the initial one, with
    [isLoading = true], and whatever is called on the component afterwards it
    stays loading and the render callback is not invoked. When no error
    handler is configured, mounting is rejected with [e], and the state is
    the initial one as well. *)
Theorem C8_initialisation_failure
    (props : Props) (env : Collaborators) (c : Component) :
  state c = initialState →
  ((rejects (loadPreferences env)
    ∨ rejects (consentLookup props)
    ∨ rejects (catalogLookup props env)
    ∨ (∃ adapter stored,
         mapCustomPreferences props = Some adapter
         ∧ loadPreferences env = Resolved stored
         ∧ freshUser props stored = true
         ∧ ∀ ds prefs, rejects (adapter ds prefs))
    ∨ (∀ args, rejects (conditionallyLoadAnalytics env args))) →
   ∃ e c1, initialise props env c = (Rejected e, c1))
  ∧ ∀ e c1,
      initialise props env c = (Rejected e, c1) →
      (∀ handler,
         onError props = Some handler →
         ∃ c2,
           componentDidMount props env c = (handler e, c2)
           ∧ effects c2 = effects c1 ++ [EvOnError e]
           ∧ state c2 = initialState
           ∧ isLoading (state c2) = true
           ∧ render (state c2) = None
           ∧ ∀ ops, ∃ c3,
               lifetime props ops c2 = (Resolved tt, c3)
               ∧ isLoading (state c3) = true
               ∧ render (state c3) = None)
      ∧ (onError props = None →
           componentDidMount props env c = (Rejected e, c1)
           ∧ state c1 = initialState
           ∧ render (state c1) = None).
Proof.
  intros Hinit. split; [apply initialise_fails|].
  intros e c1 Hrun.
  pose proof (initialise_rejected _ _ _ _ _ Hrun) as Hstate.
  rewrite Hinit in Hstate. split.
  - intros handler Hprops.
    exists {| state := state c1; effects := effects c1 ++ [EvOnError e] |}.
    assert (Hmount : componentDidMount props env c
                     = (handler e, {| state := state c1;
                                      effects := effects c1 ++ [EvOnError e] |})).
    { unfold componentDidMount. rewrite Hprops. unfold_engine.
      rewrite Hrun. simpl. by destruct (handler e). }
    split; [exact Hmount|]. simpl. rewrite Hstate.
    repeat split. intros ops. by apply loading_forever.
  - intros Hprops. unfold componentDidMount. rewrite Hprops, Hstate.
    by repeat split.
Qed.

Lemma C8_witness :
  let env :=
    {| loadPreferences := Resolved noRecord;
       savePreferences := fun _ => Resolved tt;
       fetchDestinations := fun _ => Rejected "network";
       conditionallyLoadAnalytics := fun _ => Resolved tt;
       fetchSettlesFirst := false |} in
  let props :=
    {| writeKey := "wk";
       otherWriteKeys := None;
       cookieDomain := None;
       initialPreferences := None;
       shouldRequireConsent := None;
       mapCustomPreferences := None;
       onError := Some (fun _ => Resolved tt) |} in
  state mounted = initialState
  ∧ initialise props env mounted = (Rejected "network", mounted)
  ∧ ∃ c2,
      componentDidMount props env mounted = (Resolved tt, c2)
      ∧ effects c2 = [EvOnError "network"]
      ∧ render (state c2) = None.
Proof.
  intros env props. split; [reflexivity|]. split; [reflexivity|].
  destruct (proj2 (C8_initialisation_failure props env mounted eq_refl)
              "network" mounted eq_refl) as [Hhandled _].
  destruct (Hhandled (fun _ => Resolved tt) eq_refl)
    as (c2 & Hmount & Heff & _ & _ & Hrender & _).
  exists c2. repeat split; [exact Hmount | exact Heff | exact Hrender].
Defined.

(** * Further properties of the helpers *)

Section DiffFacts.
Implicit Types (D : list Destination) (P E N : CategoryPreferences) (d : Destination).

Lemma filter_nil_iff {A} (f : A → bool) (l : list A) :
  List.filter f l = [] ↔ ∀ x, x ∈ l → f x = false.
Proof.
  induction l as [|x l IH]; simpl.
  - split; [intros _ y Hy; by apply elem_of_nil in Hy | done].
  - destruct (f x) eqn:Hx.
    + split; [discriminate|]. intros H.
      assert (Hin : x ∈ x :: l) by (apply elem_of_cons; by left).
      specialize (H x Hin). congruence.
    + rewrite IH. split.
      * intros H y [->|Hy]%elem_of_cons; auto.
      * intros H y Hy. apply H. by right.
Qed.

Lemma filter_filter_same {A} (f : A → bool) (l : list A) :
  List.filter f (List.filter f l) = List.filter f l.
Proof.
  induction l as [|x l IH]; simpl; [done|].
  destruct (f x) eqn:Hx; simpl; [rewrite Hx; by f_equal | done].
Qed.

Lemma get_empty k : get ∅ k = if inherited k then VObject else VUndefined.
Proof. unfold get. by rewrite lookup_empty. Qed.

Lemma destinationsWithoutConsent_empty D :
  destinationsWithoutConsent D (Some ∅)
  = List.filter (fun d => negb (inherited (id d))) D.
Proof.
  unfold destinationsWithoutConsent. apply filter_ext. intros d.
  rewrite get_empty. by destruct (inherited (id d)).
Qed.

Lemma filter_all {A} (f : A → bool) (l : list A) :
  (∀ x, x ∈ l → f x = true) → List.filter f l = l.
Proof.
  induction l as [|x l IH]; intros H; simpl; [done|].
  rewrite H by (apply elem_of_cons; by left).
  f_equal. apply IH. intros y Hy. apply H. by right.
Qed.

Lemma get_spread E N k :
  get (spread E N) k = match N !! k with Some v => v | None => get E k end.
Proof. unfold get. rewrite lookup_spread. by destruct (N !! k). Qed.
End DiffFacts.



(** X2. Diffing twice against the same mapping changes nothing more. Against
    a mapping without keys the diff is the catalog without the destinations
    whose id is the name of a member inherited from [Object.prototype]: the
    whole catalog when there is no such id, as against an absent mapping,
    but not, for instance, a destination with the id [constructor]. *)
Theorem X2_diff_idempotent
    (D : list Destination) (oP : option CategoryPreferences) :
  destinationsWithoutConsent (destinationsWithoutConsent D oP) oP
  = destinationsWithoutConsent D oP
  ∧ destinationsWithoutConsent D (Some ∅)
    = List.filter (fun d => negb (inherited (id d))) D
  ∧ ((∀ d, d ∈ D → inherited (id d) = false) →
       destinationsWithoutConsent D (Some ∅) = destinationsWithoutConsent D None)
  ∧ destinationsWithoutConsent (dConstructor :: D) (Some ∅)
    = destinationsWithoutConsent D (Some ∅).
Proof.
  split; [|split; [|split]].
  - destruct oP as [P|]; [apply filter_filter_same | done].
  - apply destinationsWithoutConsent_empty.
  - intros HD. rewrite destinationsWithoutConsent_empty. simpl.
    apply filter_all. intros d Hd. by rewrite (HD d Hd).
  - by rewrite !destinationsWithoutConsent_empty.
Qed.

Lemma X2_witness :
  (∀ d, d ∈ [dA; dB] → inherited (id d) = false)
  ∧ destinationsWithoutConsent [dA; dB] (Some ∅) = [dA; dB]
  ∧ destinationsWithoutConsent [dConstructor; dA] (Some ∅) = [dA].
Proof.
  assert (HD : ∀ d, d ∈ [dA; dB] → inherited (id d) = false).
  { intros d [->|[->|Hd%elem_of_nil]%elem_of_cons]%elem_of_cons;
      [reflexivity | reflexivity | done]. }
  split; [exact HD|]. split.
  - exact (proj1 (proj2 (proj2 (X2_diff_idempotent [dA; dB] None))) HD).
  - rewrite (proj2 (proj2 (proj2 (X2_diff_idempotent [dA] None)))).
    reflexivity.
Defined.

(** X3. After a broadcast merge no destination of the catalog is left
    without consent decision: the diff of [D] against
    [mergePreferences(D, E, b)] is empty, for accept-all and decline-all
    alike. *)
Theorem X3_broadcast_decides_every_destination
    (D : list Destination) (E : CategoryPreferences) (b : bool) :
  destinationsWithoutConsent D (Some (mergePreferences D E (NPBoolean b))) = [].
Proof.
  unfold destinationsWithoutConsent. apply filter_nil_iff. intros d Hd.
  apply bool_decide_eq_false. unfold get, mergePreferences.
  rewrite lookup_broadcast, bool_decide_eq_true_2; [done|].
  by apply list_elem_of_fmap_2.
Qed.

(** X4. After an incremental merge of [N] over [E], a destination is in the
    diff exactly when [N] binds its id to [undefined], or [N] has no such key
    and the destination was already undecided in [E]. So merging a mapping
    without [undefined] values never adds a destination to the diff, while
    merging [{x: undefined}] puts a decided [x] back into it. *)
Theorem X4_diff_after_incremental_merge
    (D : list Destination) (E N : CategoryPreferences) (d : Destination) :
  (d ∈ destinationsWithoutConsent D (Some (mergePreferences D E (NPObject N)))
   ↔ d ∈ D ∧ (N !! id d = Some VUndefined
              ∨ (N !! id d = None ∧ get E (id d) = VUndefined)))
  ∧ ((∀ k, N !! k ≠ Some VUndefined) →
       d ∈ destinationsWithoutConsent D (Some (mergePreferences D E (NPObject N))) →
       d ∈ destinationsWithoutConsent D (Some E))
  ∧ (d ∈ D → N !! id d = Some VUndefined →
       d ∈ destinationsWithoutConsent D (Some (mergePreferences D E (NPObject N)))).
Proof.
  assert (Hiff : d ∈ destinationsWithoutConsent D (Some (mergePreferences D E (NPObject N)))
   ↔ d ∈ D ∧ (N !! id d = Some VUndefined
              ∨ (N !! id d = None ∧ get E (id d) = VUndefined))).
  { rewrite elem_of_destinationsWithoutConsent. unfold mergePreferences.
    rewrite get_spread. destruct (N !! id d) as [v|]; split.
    - intros [Hd ->]. by split; [|left].
    - intros [Hd [[= ->]|[? _]]]; by split.
    - intros [Hd Hu]. split; [done|]. by right.
    - intros [Hd [?|[_ Hu]]]; by split. }
  split; [exact Hiff|]. split.
  - intros HN [Hd [Hu|[_ Hu]]]%Hiff.
    + by destruct (HN (id d)).
    + by apply elem_of_destinationsWithoutConsent.
  - intros Hd Hu. apply Hiff. split; [done|]. by left.
Qed.

Lemma X4_witness :
  (∀ k, ({["b" := VBool false]} : CategoryPreferences) !! k ≠ Some VUndefined)
  ∧ dA ∈ [dA; dB]
  ∧ dA ∈ destinationsWithoutConsent [dA; dB]
           (Some (mergePreferences [dA; dB] {["a" := VBool true]}
                    (NPObject {["a" := VUndefined]})))
  ∧ (dB ∈ destinationsWithoutConsent [dA; dB]
            (Some (mergePreferences [dA; dB] {["a" := VBool true]}
                     (NPObject {["b" := VBool false]}))) →
     dB ∈ destinationsWithoutConsent [dA; dB] (Some {["a" := VBool true]})).
Proof.
  assert (HN : ∀ k, ({["b" := VBool false]} : CategoryPreferences) !! k
                    ≠ Some VUndefined).
  { intros k. destruct (decide (k = "b")) as [->|Hk].
    - rewrite lookup_singleton_eq. discriminate.
    - rewrite lookup_singleton_ne by done. discriminate. }
  assert (HA : dA ∈ [dA; dB]) by (apply list_elem_of_In; vm_compute; tauto).
  split; [exact HN|]. split; [exact HA|]. split.
  - exact (proj2 (proj2 (X4_diff_after_incremental_merge [dA; dB]
             {["a" := VBool true]} {["a" := VUndefined]} dA)) HA eq_refl).
  - exact (proj1 (proj2 (X4_diff_after_incremental_merge [dA; dB]
             {["a" := VBool true]} {["b" := VBool false]} dB)) HN).
Defined.

(** * Further properties of the engine *)

Section Mount.
Implicit Types (props : Props) (env : Collaborators) (c : Component).

(** Every way [initialise] can end, with what it has done by then. *)
Lemma initialise_cases props env c r c' :
  initialise props env c = (r, c') →
  (∃ e, r = Rejected e ∧ c' = c)
  ∨ ∃ stored isRequired catalog working,
      loadPreferences env = Resolved stored
      ∧ promise_all (fetchSettlesFirst env) (consentLookup props)
          (catalogLookup props env) = Resolved (isRequired, catalog)
      ∧ match mapCustomPreferences props with
        | Some adapter =>
            if freshUser props stored then
              ∃ mapped,
                adapter catalog
                  (default ∅ (or_else (loaded_customPreferences stored)
                                      (initialPreferences props)))
                = Resolved mapped
                ∧ working = mapped_destinationPreferences mapped
            else working = default ∅ (loaded_destinationPreferences stored)
        | None => working = default ∅ (loaded_destinationPreferences stored)
        end
      ∧ effects c'
        = effects c
          ++ [EvLoadAnalytics
                {| analytics_writeKey := writeKey props;
                   analytics_destinations := catalog;
                   analytics_destinationPreferences := working;
                   analytics_isConsentRequired := isRequired;
                   analytics_shouldReload := None |}]
      ∧ match r with
        | Resolved _ =>
            isLoading (state c') = false
            ∧ destinations (state c') = catalog
            ∧ isConsentRequired (state c') = isRequired
        | Rejected _ => state c' = state c
        end.
Proof.
  unfold initialise, consentLookup, catalogLookup, freshUser. unfold_engine.
  intros Hrun.
  destruct (loadPreferences env) as [stored|e0];
    [|injection Hrun as <- <-; left; by eauto].
  destruct (promise_all _ _ _) as [[isRequired catalog]|e0];
    [|injection Hrun as <- <-; left; by eauto].
  destruct (mapCustomPreferences props) as [adapter|].
  - destruct (_ && _) eqn:Hfresh.
    + destruct (adapter _ _) as [mapped|e0] eqn:Hadapter;
        [|injection Hrun as <- <-; left; by eauto].
      right. exists stored, isRequired, catalog, (mapped_destinationPreferences mapped).
      rewrite Hfresh.
      destruct (conditionallyLoadAnalytics env _); injection Hrun as <- <-;
        (do 2 (split; [done|]); split; [by exists mapped|]; by repeat split).
    + right.
      exists stored, isRequired, catalog, (default ∅ (loaded_destinationPreferences stored)).
      rewrite Hfresh.
      destruct (conditionallyLoadAnalytics env _); injection Hrun as <- <-;
        by repeat split.
  - right.
    exists stored, isRequired, catalog, (default ∅ (loaded_destinationPreferences stored)).
    destruct (conditionallyLoadAnalytics env _); injection Hrun as <- <-;
      by repeat split.
Qed.

(** [initialise] completes when none of what it calls fails. *)
Lemma initialise_succeeds props env c stored isRequired catalog :
  loadPreferences env = Resolved stored →
  promise_all (fetchSettlesFirst env) (consentLookup props) (catalogLookup props env)
  = Resolved (isRequired, catalog) →
  (∀ adapter ds prefs, mapCustomPreferences props = Some adapter →
     ∃ mapped, adapter ds prefs = Resolved mapped) →
  (∀ args, conditionallyLoadAnalytics env args = Resolved tt) →
  ∃ c', initialise props env c = (Resolved tt, c').
Proof.
  intros Hload Hjoin Hadapter Hanalytics.
  unfold initialise, consentLookup, catalogLookup in *. unfold_engine.
  rewrite Hload, Hjoin.
  destruct (mapCustomPreferences props) as [adapter|].
  - destruct (_ && _).
    + destruct (Hadapter adapter catalog
                  (default ∅ (or_else (loaded_customPreferences stored)
                                      (initialPreferences props))) eq_refl)
        as [mapped ->].
      rewrite Hanalytics. by eexists.
    + rewrite Hanalytics. by eexists.
  - rewrite Hanalytics. by eexists.
Qed.
End Mount.



(** The effects of a mount, however it ends. *)
Lemma mount_effects (props : Props) (env : Collaborators) (c : Component) r c' :
  componentDidMount props env c = (r, c') →
  ∃ evs,
    effects c' = effects c ++ evs
    ∧ ((evs = [] ∨ ∃ args, evs = [EvLoadAnalytics args])
       ∨ ∃ e handler,
           onError props = Some handler
           ∧ (initialise props env c).1 = Rejected e
           ∧ (evs = [EvOnError e]
              ∨ ∃ args, evs = [EvLoadAnalytics args; EvOnError e])).
Proof.
  intros Hmount. unfold componentDidMount in Hmount.
  assert (Hinit : ∀ r1 c1, initialise props env c = (r1, c1) →
            effects c1 = effects c
            ∨ ∃ args, effects c1 = effects c ++ [EvLoadAnalytics args]).
  { intros r1 c1 Hrun.
    destruct (initialise_cases _ _ _ _ _ Hrun)
      as [(e & _ & ->)|(? & ? & ? & ? & _ & _ & _ & Heff & _)]; eauto. }
  destruct (onError props) as [handler|] eqn:Hprops.
  - unfold try_catch in Hmount.
    destruct (initialise props env c) as [[[]|e] c1] eqn:Hrun.
    + injection Hmount as <- <-.
      destruct (Hinit _ _ eq_refl) as [->|[args ->]].
      * exists []. rewrite app_nil_r. split; [done|]. left. by left.
      * eexists. split; [reflexivity|]. left. right. by eexists.
    + unfold_engine. simpl in Hmount.
      assert (effects c' = effects c1 ++ [EvOnError e]) as ->
        by (destruct (handler e); by injection Hmount as <- <-).
      destruct (Hinit _ _ eq_refl) as [->|[args ->]].
      * eexists. split; [reflexivity|]. right. exists e, handler.
        do 2 (split; [done|]). by left.
      * rewrite <- app_assoc. eexists. split; [reflexivity|]. right.
        exists e, handler. do 2 (split; [done|]). right. by eexists.
  - destruct (Hinit _ _ Hmount) as [->|[args ->]].
    + exists []. rewrite app_nil_r. split; [done|]. left. by left.
    + eexists. split; [reflexivity|]. left. right. by eexists.
Qed.

(** X6. Mounting and [resetPreferences] never write to the store, however
    they end. [resetPreferences] has no effect on the collaborators at all; a
    mount activates analytics at most once and calls the error handler at
    most once, after the activation if there was one, and only when a handler
    is configured and the mount has not resolved through [initialise]. *)
Theorem X6_only_saveConsent_writes_the_store
    (props : Props) (env : Collaborators) (c : Component) :
  (∀ r c', componentDidMount props env c = (r, c') →
     ∃ evs, effects c' = effects c ++ evs
            ∧ List.filter isStoreWrite evs = []
            ∧ (List.length (List.filter isActivation evs) ≤ 1)%nat
            ∧ (List.length (List.filter isHandlerCall evs) ≤ 1)%nat
            ∧ (List.length evs ≤ 2)%nat
            ∧ (∀ e pre post, evs = pre ++ EvOnError e :: post →
                 post = []
                 ∧ is_Some (onError props)
                 ∧ (initialise props env c).1 = Rejected e))
  ∧ (∀ r c', handleResetPreferences props env c = (r, c') → effects c' = effects c).
Proof.
  split.
  - intros r c' Hmount.
    destruct (mount_effects _ _ _ _ _ Hmount) as (evs & Heff & Hshape).
    exists evs. split; [exact Heff|].
    destruct Hshape as [[->|[args ->]]|(e & handler & Hprops & Hrun
                                         & [->|[args ->]])];
      simpl; (split; [done|]); do 3 (split; [lia|]);
      intros e' pre post Heq;
      destruct pre as [|? [|? [|? ?]]]; simpl in Heq; simplify_eq;
      (split; [done|]); (split; [by eexists | done]).
  - intros r c'. unfold handleResetPreferences. unfold_engine.
    destruct (loadPreferences env); by intros [= <- <-].
Qed.

Lemma X6_witness :
  let env := analyticsDown consentedA [dA; dB] in
  let run := componentDidMount plain env mounted in
  run.1 = Rejected "blocked"
  ∧ ∃ evs, effects run.2 = effects mounted ++ evs
           ∧ List.filter isStoreWrite evs = [].
Proof.
  intros env run. split; [reflexivity|].
  destruct (proj1 (X6_only_saveConsent_writes_the_store plain env mounted)
              run.1 run.2 eq_refl) as (evs & Heff & Hnone & _).
  exists evs. split; [exact Heff | exact Hnone].
Defined.

(** X7. At initialisation the adapter matters only to the analytics
    activation of the fresh-user branch. Outside that branch the outcome of
    [initialise] is the same whatever the adapter; inside it, any two
    adapters that return leave the same state: what the adapter returns is
    not exposed as [preferences] and not diffed against. *)
Theorem X7_adapter_irrelevant_to_initial_state
    (props : Props) (env : Collaborators) (c : Component)
    (f g : list Destination → CategoryPreferences → Outcome Mapped)
    (stored : Preferences) :
  loadPreferences env = Resolved stored →
  (freshUser props stored = false →
     initialise (withAdapter f props) env c = initialise (withAdapter g props) env c)
  ∧ (∀ c1 c2,
       initialise (withAdapter f props) env c = (Resolved tt, c1) →
       initialise (withAdapter g props) env c = (Resolved tt, c2) →
       state c1 = state c2).
Proof.
  intros Hload. unfold initialise, freshUser. unfold_engine. simpl.
  rewrite Hload. split.
  - intros ->. reflexivity.
  - intros c1 c2.
    destruct (promise_all _ _ _) as [[isRequired catalog]|]; [|discriminate].
    destruct (_ && _).
    + destruct (f _ _); [|discriminate]. destruct (g _ _); [|discriminate].
      do 2 (destruct (conditionallyLoadAnalytics env _); [|discriminate]).
      by intros [= <-] [= <-].
    + destruct (conditionallyLoadAnalytics env _); [|discriminate].
      by intros [= <-] [= <-].
Qed.

Lemma X7_witness :
  loadPreferences (quiet customDecided [dA; dB]) = Resolved customDecided
  ∧ freshUser declared customDecided = false
  ∧ initialise (withAdapter brokenAdapter declared) (quiet customDecided [dA; dB]) mounted
    = initialise (withAdapter consentToA declared) (quiet customDecided [dA; dB]) mounted.
Proof.
  split; [reflexivity|]. split; [reflexivity|].
  exact (proj1 (X7_adapter_irrelevant_to_initial_state declared
                  (quiet customDecided [dA; dB]) mounted brokenAdapter consentToA
                  customDecided eq_refl) eq_refl).
Defined.

(** X8. [initialise] and [componentDidMount] behave the same on the props as
    given and on the props completed with [defaultProps]: lines 137-138 and
    the [|| {}] of lines 154-157 repeat the defaults. *)
Theorem X8_initialise_repeats_defaultProps
    (props : Props) (env : Collaborators) (c : Component) :
  initialise (withDefaultProps props) env c = initialise props env c
  ∧ componentDidMount (withDefaultProps props) env c = componentDidMount props env c.
Proof.
  assert (Hinit : initialise (withDefaultProps props) env c = initialise props env c).
  { unfold initialise. unfold_engine. simpl.
    destruct (loadPreferences env) as [stored|]; [|done].
    assert (default (Resolved true)
              (or_else (shouldRequireConsent props) (Some (Resolved true)))
            = default (Resolved true) (shouldRequireConsent props)) as ->
      by (by destruct (shouldRequireConsent props)).
    assert (default [] (or_else (otherWriteKeys props) (Some []))
            = default [] (otherWriteKeys props)) as ->
      by (by destruct (otherWriteKeys props)).
    destruct (promise_all _ _ _) as [[isRequired catalog]|]; [|done].
    assert (default ∅ (or_else (initialPreferences props) (Some ∅))
            = default ∅ (initialPreferences props)) as ->
      by (by destruct (initialPreferences props)).
    assert (default ∅ (or_else (loaded_customPreferences stored)
                         (or_else (initialPreferences props) (Some ∅)))
            = default ∅ (or_else (loaded_customPreferences stored)
                           (initialPreferences props))) as ->
      by (by destruct (loaded_customPreferences stored), (initialPreferences props)).
    reflexivity. }
  split; [exact Hinit|].
  unfold componentDidMount. simpl. destruct (onError props); [|exact Hinit].
  unfold try_catch. by rewrite Hinit.
Qed.

(** X9. [resetPreferences] is idempotent, and when the store can be read it
    discards an edit made by [setPreferences]: a reset after the edit leaves
    the component exactly as a reset without it. *)
Theorem X9_reset_idempotent_and_discards_edits
    (props : Props) (env : Collaborators) (newPreferences : NewPreferences)
    (c : Component) :
  (handleResetPreferences props env;; handleResetPreferences props env) c
  = handleResetPreferences props env c
  ∧ (∀ stored, loadPreferences env = Resolved stored →
       (handleSetPreferences newPreferences;; handleResetPreferences props env) c
       = handleResetPreferences props env c).
Proof.
  unfold handleResetPreferences, handleSetPreferences. unfold_engine. split.
  - by destruct (loadPreferences env).
  - by intros stored ->.
Qed.

Lemma X9_witness :
  loadPreferences (quiet consentedA [dA; dB]) = Resolved consentedA
  ∧ (handleSetPreferences (NPBoolean false);;
     handleResetPreferences plain (quiet consentedA [dA; dB])) mounted
    = handleResetPreferences plain (quiet consentedA [dA; dB]) mounted.
Proof.
  split; [reflexivity|].
  exact (proj2 (X9_reset_idempotent_and_discards_edits plain
                  (quiet consentedA [dA; dB]) (NPBoolean false) mounted)
           consentedA eq_refl).
Defined.

(** X10. When the store can be read, [resetPreferences] returns, and the
    [preferences] it sets are [undefined] exactly when no initial preferences
    are given and the store holds nothing for the configuration: no custom
    preferences with an adapter, no destination-level preferences without
    one. With the props completed by [defaultProps] this never happens. After
    such a reset [setPreferences(N)] starts from the empty mapping and
    exposes [N]. *)
Theorem X10_reset_may_expose_undefined
    (props : Props) (env : Collaborators) (stored : Preferences) (c : Component) :
  loadPreferences env = Resolved stored →
  ∃ c',
    handleResetPreferences props env c = (Resolved tt, c')
    ∧ (preferences (state c') = None
       ↔ initialPreferences props = None
         ∧ match mapCustomPreferences props with
           | Some _ => loaded_customPreferences stored = None
           | None => loaded_destinationPreferences stored = None
           end)
    ∧ (∃ c'', handleResetPreferences (withDefaultProps props) env c = (Resolved tt, c'')
              ∧ is_Some (preferences (state c'')))
    ∧ (preferences (state c') = None →
       ∀ N, ∃ c'', handleSetPreferences (NPObject N) c' = (Resolved tt, c'')
                   ∧ preferences (state c'') = Some N).
Proof.
  intros Hload. unfold handleResetPreferences, handleSetPreferences.
  unfold_engine. rewrite Hload. simpl.
  eexists. split; [reflexivity|]. simpl. split; [|split].
  - destruct (mapCustomPreferences props);
      [destruct (loaded_customPreferences stored)
      |destruct (loaded_destinationPreferences stored)];
      destruct (initialPreferences props); simpl; split; try done;
      by intros [? ?].
  - eexists. split; [reflexivity|]. simpl.
    destruct (mapCustomPreferences props);
      [destruct (loaded_customPreferences stored)
      |destruct (loaded_destinationPreferences stored)];
      destruct (initialPreferences props); by eexists.
  - intros ->. intros N. eexists. split; [reflexivity|]. simpl.
    unfold mergePreferences, spread. by rewrite (right_id ∅ (∪)).
Qed.

Lemma X10_witness :
  loadPreferences (quiet noRecord [dA]) = Resolved noRecord
  ∧ ∃ c', handleResetPreferences plain (quiet noRecord [dA]) mounted = (Resolved tt, c')
          ∧ preferences (state c') = None.
Proof.
  split; [reflexivity|].
  destruct (X10_reset_may_expose_undefined plain (quiet noRecord [dA]) noRecord
              mounted eq_refl) as (c' & Hrun & Hnone & _).
  exists c'. split; [exact Hrun|].
  apply Hnone. split; reflexivity.
Defined.

(** X11. Consecutive [setPreferences] compose: two object edits amount to the
    single edit by their spread, a boolean edit overrides whatever edit came
    before it, and an edit by [undefined] after any edit changes nothing. *)
Theorem X11_setPreferences_compose
    (N1 N2 : CategoryPreferences) (newPreferences : NewPreferences) (b : bool)
    (c : Component) :
  (handleSetPreferences (NPObject N1);; handleSetPreferences (NPObject N2)) c
  = handleSetPreferences (NPObject (spread N1 N2)) c
  ∧ (handleSetPreferences newPreferences;; handleSetPreferences (NPBoolean b)) c
    = handleSetPreferences (NPBoolean b) c
  ∧ (handleSetPreferences newPreferences;; handleSetPreferences NPUndefined) c
    = handleSetPreferences newPreferences c.
Proof.
  unfold handleSetPreferences. unfold_engine. simpl. repeat split.
  - unfold spread. by rewrite (assoc_L (∪)).
  - unfold spread. by rewrite (left_id ∅ (∪)).
Qed.

(** X12. Editing and then saving without argument is saving the edit:
    [setPreferences(p)] followed by [saveConsent(undefined, r)] ends like
    [saveConsent(p, r)], with the same effects, and when it returns with the
    same state. (When it throws, the edit alone stays in the state.) *)
Theorem X12_edit_then_save_is_save
    (props : Props) (env : Collaborators) (newPreferences : NewPreferences)
    (shouldReload : option bool) (c : Component) :
  let edited :=
    (handleSetPreferences newPreferences;;
     handleSaveConsent props env NPUndefined shouldReload) c in
  let direct := handleSaveConsent props env newPreferences shouldReload c in
  edited.1 = direct.1
  ∧ effects edited.2 = effects direct.2
  ∧ (direct.1 = Resolved tt → edited.2 = direct.2)
  ∧ (∀ e, direct.1 = Rejected e →
       state direct.2 = state c
       ∧ preferences (state edited.2)
         = Some (mergePreferences (destinations (state c))
                   (default ∅ (preferences (state c))) newPreferences)).
Proof.
  unfold handleSetPreferences, handleSaveConsent. unfold_engine.
  cbn -[mergePreferences].
  assert (mergePreferences (destinations (state c))
            (mergePreferences (destinations (state c))
               (default ∅ (preferences (state c))) newPreferences) NPUndefined
          = mergePreferences (destinations (state c))
              (default ∅ (preferences (state c))) newPreferences) as ->
    by (unfold mergePreferences at 1; unfold spread; by rewrite (left_id ∅ (∪))).
  destruct (mapCustomPreferences props) as [adapter|].
  - destruct (adapter _ _) as [mapped|]; [|by repeat split].
    destruct (mapped_customPreferences mapped);
      destruct (savePreferences env _); cbn -[mergePreferences];
      try (by repeat split);
      destruct (conditionallyLoadAnalytics env _); cbn -[mergePreferences];
      by repeat split.
  - destruct (savePreferences env _); cbn -[mergePreferences]; [|by repeat split].
    destruct (conditionallyLoadAnalytics env _); cbn -[mergePreferences];
      by repeat split.
Qed.

Lemma X12_witness :
  let env := quiet noRecord [dA; dB] in
  (handleSaveConsent plain env (NPBoolean true) None mounted).1 = Resolved tt
  ∧ ((handleSetPreferences (NPBoolean true);;
      handleSaveConsent plain env NPUndefined None) mounted).2
    = (handleSaveConsent plain env (NPBoolean true) None mounted).2.
Proof.
  intros env. split; [reflexivity|].
  exact (proj1 (proj2 (proj2 (X12_edit_then_save_is_save plain env
                                (NPBoolean true) None mounted))) eq_refl).
Defined.

(** X13. Without an adapter, when the store write returns and the analytics
    activation that follows it throws, [saveConsent] throws with the store
    already written:
    the state, [preferences] and [newDestinations] included, is the one
    before the call, while the effects hold the write of the merged
    preferences. *)
Theorem X13_save_written_before_activation_fails
    (props : Props) (env : Collaborators) (newPreferences : NewPreferences)
    (shouldReload : option bool) (c : Component) (e : Error) :
  mapCustomPreferences props = None →
  (∀ args, savePreferences env args = Resolved tt) →
  (∀ args, conditionallyLoadAnalytics env args = Rejected e) →
  ∃ c' saved args,
    handleSaveConsent props env newPreferences shouldReload c = (Rejected e, c')
    ∧ state c' = state c
    ∧ effects c' = effects c ++ [EvSavePreferences saved; EvLoadAnalytics args]
    ∧ save_destinationPreferences saved
      = mergePreferences (destinations (state c))
          (default ∅ (preferences (state c))) newPreferences
    ∧ lastSaved (effects c') = Some (save_destinationPreferences saved).
Proof.
  intros Hnone Hsave Hanalytics.
  unfold handleSaveConsent. unfold_engine. cbn -[mergePreferences].
  rewrite Hnone. cbn -[mergePreferences]. rewrite Hsave, Hanalytics.
  do 3 eexists. split; [reflexivity|]. cbn -[mergePreferences].
  rewrite <- app_assoc. repeat split.
  apply lastSaved_after_save.
Qed.

Lemma X13_witness :
  let env := analyticsDown consentedA [dA; dB] in
  let c := (initialise plain (quiet consentedA [dA; dB]) mounted).2 in
  ∃ c',
    handleSaveConsent plain env (NPBoolean true) None c = (Rejected "blocked", c')
    ∧ newDestinations (state c') = [dB]
    ∧ lastSaved (effects c') = Some {["a" := VBool true; "b" := VBool true]}.
Proof.
  intros env c.
  destruct (X13_save_written_before_activation_fails plain env (NPBoolean true)
              None c "blocked" eq_refl (fun _ => eq_refl) (fun _ => eq_refl))
    as (c' & saved & args & Hrun & Hstate & _ & Hsaved & Hlast).
  exists c'. split; [exact Hrun|]. split.
  - rewrite Hstate. reflexivity.
  - rewrite Hlast, Hsaved. vm_compute. reflexivity.
Defined.

(** X14. An adapter that throws during [saveConsent] stops it before
    anything is done: nothing is written to the store, analytics is not
    activated, and the component is as before the call. *)
Theorem X14_save_with_throwing_adapter
    (props : Props) (env : Collaborators) (newPreferences : NewPreferences)
    (shouldReload : option bool) (c : Component) (e : Error)
    (adapter : list Destination → CategoryPreferences → Outcome Mapped) :
  mapCustomPreferences props = Some adapter →
  adapter (destinations (state c))
    (mergePreferences (destinations (state c))
       (default ∅ (preferences (state c))) newPreferences) = Rejected e →
  handleSaveConsent props env newPreferences shouldReload c = (Rejected e, c).
Proof.
  intros Hadapter Hthrows.
  unfold handleSaveConsent. unfold_engine. cbn -[mergePreferences].
  rewrite Hadapter. cbn -[mergePreferences]. by rewrite Hthrows.
Qed.

Lemma X14_witness :
  handleSaveConsent (withAdapter brokenAdapter plain) (quiet noRecord [dA])
    (NPBoolean true) None mounted
  = (Rejected "adapter", mounted).
Proof.
  exact (X14_save_with_throwing_adapter (withAdapter brokenAdapter plain)
           (quiet noRecord [dA]) (NPBoolean true) None mounted "adapter"
           brokenAdapter eq_refl eq_refl).
Defined.

(** X15. The record that a completed [saveConsent] writes: it carries custom
    preferences exactly when an adapter is configured, and the cookie domain
    of the props; the [preferences] exposed afterwards are its custom
    preferences when it has some and its destination-level preferences
    otherwise; and analytics is activated with its destination-level
    preferences, the catalog and the consent requirement of the state. *)
Theorem X15_saved_record
    (props : Props) (env : Collaborators) (newPreferences : NewPreferences)
    (shouldReload : option bool) (c c' : Component) :
  handleSaveConsent props env newPreferences shouldReload c = (Resolved tt, c') →
  ∃ saved args,
    effects c' = effects c ++ [EvSavePreferences saved; EvLoadAnalytics args]
    ∧ (is_Some (save_customPreferences saved) ↔ is_Some (mapCustomPreferences props))
    ∧ save_cookieDomain saved = cookieDomain props
    ∧ preferences (state c')
      = Some (default (save_destinationPreferences saved)
                      (save_customPreferences saved))
    ∧ state_destinationPreferences (state c')
      = Some (save_destinationPreferences saved)
    ∧ args = {| analytics_writeKey := writeKey props;
                analytics_destinations := destinations (state c);
                analytics_destinationPreferences := save_destinationPreferences saved;
                analytics_isConsentRequired := isConsentRequired (state c);
                analytics_shouldReload := shouldReload |}.
Proof.
  unfold handleSaveConsent. unfold_engine. cbn -[mergePreferences].
  destruct (mapCustomPreferences props) as [adapter|].
  - destruct (adapter _ _) as [mapped|]; [|discriminate].
    destruct (mapped_customPreferences mapped) as [custom|];
      cbn -[mergePreferences];
      (destruct (savePreferences env _); [|discriminate]);
      (destruct (conditionallyLoadAnalytics env _); [|discriminate]);
      intros [= <-]; cbn -[mergePreferences]; rewrite <- app_assoc;
      do 2 eexists; (split; [reflexivity|]); cbn -[mergePreferences];
      repeat split; by eexists.
  - cbn -[mergePreferences].
    destruct (savePreferences env _); [|discriminate].
    destruct (conditionallyLoadAnalytics env _); [|discriminate].
    intros [= <-]. cbn -[mergePreferences]. rewrite <- app_assoc.
    do 2 eexists. split; [reflexivity|]. cbn -[mergePreferences].
    repeat split; by intros [? ?].
Qed.

Lemma X15_witness :
  let env := quiet noRecord [dA; dB] in
  let run := handleSaveConsent (withAdapter consentToA plain) env
               (NPObject {["marketing" := VBool true]}) None mounted in
  ∃ saved args,
    effects run.2 = [EvSavePreferences saved; EvLoadAnalytics args]
    ∧ is_Some (save_customPreferences saved).
Proof.
  intros env run.
  destruct (X15_saved_record (withAdapter consentToA plain) env
              (NPObject {["marketing" := VBool true]}) None mounted run.2 eq_refl)
    as (saved & args & Heff & Hcustom & _).
  exists saved, args. split; [exact Heff|].
  apply Hcustom. by eexists.
Defined.

Section RoundTrip.
Implicit Types (props : Props) (env : Collaborators) (c : Component).

(** What a completed save has written and published. *)
Lemma handleSaveConsent_resolved props env newPreferences shouldReload c c' :
  handleSaveConsent props env newPreferences shouldReload c = (Resolved tt, c') →
  ∃ saved args,
    c' = {| state :=
              {| isLoading := isLoading (state c);
                 destinations := destinations (state c);
                 newDestinations :=
                   destinationsWithoutConsent (destinations (state c))
                     (Some (save_destinationPreferences saved));
                 preferences :=
                   Some (default (save_destinationPreferences saved)
                                 (save_customPreferences saved));
                 isConsentRequired := isConsentRequired (state c);
                 state_destinationPreferences :=
                   Some (save_destinationPreferences saved) |};
            effects := effects c ++ [EvSavePreferences saved; EvLoadAnalytics args] |}
    ∧ (is_Some (save_customPreferences saved) ↔ is_Some (mapCustomPreferences props)).
Proof.
  unfold handleSaveConsent. unfold_engine. cbn -[mergePreferences].
  set (merged := mergePreferences (destinations (state c))
                   (default ∅ (preferences (state c))) newPreferences).
  destruct (mapCustomPreferences props) as [adapter|].
  - destruct (adapter _ _) as [mapped|]; [|discriminate].
    destruct (mapped_customPreferences mapped) as [custom|];
      cbn -[mergePreferences];
      (destruct (savePreferences env _); [|discriminate]);
      (destruct (conditionallyLoadAnalytics env _); [|discriminate]);
      intros [= <-]; cbn -[mergePreferences]; rewrite <- app_assoc.
    + exists {| save_destinationPreferences := mapped_destinationPreferences mapped;
                save_customPreferences := Some custom;
                save_cookieDomain := cookieDomain props |}.
      eexists. split; [reflexivity|]. split; by eexists.
    + exists {| save_destinationPreferences := mapped_destinationPreferences mapped;
                save_customPreferences := Some merged;
                save_cookieDomain := cookieDomain props |}.
      eexists. split; [reflexivity|]. split; by eexists.
  - cbn -[mergePreferences].
    destruct (savePreferences env _); [|discriminate].
    destruct (conditionallyLoadAnalytics env _); [|discriminate].
    intros [= <-]. cbn -[mergePreferences]. rewrite <- app_assoc.
    exists {| save_destinationPreferences := merged;
              save_customPreferences := None;
              save_cookieDomain := cookieDomain props |}.
    eexists. split; [reflexivity|]. split; by intros [? ?].
Qed.
End RoundTrip.

(** X16. Save, then reset, over a store that gives back the record it was
    last given: [resetPreferences] leaves the whole state as [saveConsent]
    published it, with or without an adapter. *)
Theorem X16_reset_after_save_changes_nothing
    (props : Props) (env env' : Collaborators) (newPreferences : NewPreferences)
    (shouldReload : option bool) (c c' : Component)
    (saved : SaveArgs) (args : AnalyticsArgs) :
  handleSaveConsent props env newPreferences shouldReload c = (Resolved tt, c') →
  effects c' = effects c ++ [EvSavePreferences saved; EvLoadAnalytics args] →
  loadPreferences env' = Resolved (persistedBy saved) →
  handleResetPreferences props env' c' = (Resolved tt, c').
Proof.
  intros Hrun Heff Hload.
  destruct (handleSaveConsent_resolved _ _ _ _ _ _ Hrun)
    as (saved' & args' & -> & Hcustom).
  simpl in Heff. apply app_inv_head in Heff. injection Heff as -> ->.
  unfold handleResetPreferences. unfold_engine. rewrite Hload. simpl.
  destruct (mapCustomPreferences props) as [adapter|].
  - destruct (proj2 Hcustom (mk_is_Some _ _ eq_refl)) as [custom ->]. reflexivity.
  - destruct (save_customPreferences saved) as [custom|]; [|reflexivity].
    destruct (proj1 Hcustom (mk_is_Some _ _ eq_refl)) as [? [=]].
Qed.

Lemma X16_witness :
  let env := quiet noRecord [dA; dB] in
  let props := withAdapter consentToA declared in
  let run := handleSaveConsent props env (NPBoolean false) None mounted in
  ∃ saved,
    lastSaved (effects run.2) = Some (save_destinationPreferences saved)
    ∧ handleResetPreferences props (quiet (persistedBy saved) [dA; dB]) run.2
      = (Resolved tt, run.2).
Proof.
  intros env props run.
  eexists {| save_destinationPreferences := {["a" := VBool true]};
             save_customPreferences := Some ∅;
             save_cookieDomain := None |}.
  split; [reflexivity|].
  eapply (X16_reset_after_save_changes_nothing props env _ (NPBoolean false)
            None mounted run.2); reflexivity.
Defined.

(** X17. Save, then mount a fresh component over a store that gives back the
    record it was last given, with the same catalog and consent requirement
    and nothing failing: the new component publishes the [destinations],
    [newDestinations], [preferences] and [isConsentRequired] that
    [saveConsent] left, and is ready. *)
Theorem X17_mount_after_save_restores_state
    (props : Props) (env env' : Collaborators) (newPreferences : NewPreferences)
    (shouldReload : option bool) (c c' : Component)
    (saved : SaveArgs) (args : AnalyticsArgs) :
  handleSaveConsent props env newPreferences shouldReload c = (Resolved tt, c') →
  effects c' = effects c ++ [EvSavePreferences saved; EvLoadAnalytics args] →
  loadPreferences env' = Resolved (persistedBy saved) →
  promise_all (fetchSettlesFirst env') (consentLookup props) (catalogLookup props env')
  = Resolved (isConsentRequired (state c), destinations (state c)) →
  (∀ adapter ds prefs, mapCustomPreferences props = Some adapter →
     ∃ mapped, adapter ds prefs = Resolved mapped) →
  (∀ args', conditionallyLoadAnalytics env' args' = Resolved tt) →
  ∃ c2,
    initialise props env' mounted = (Resolved tt, c2)
    ∧ isLoading (state c2) = false
    ∧ destinations (state c2) = destinations (state c')
    ∧ newDestinations (state c2) = newDestinations (state c')
    ∧ preferences (state c2) = preferences (state c')
    ∧ isConsentRequired (state c2) = isConsentRequired (state c').
Proof.
  intros Hrun Heff Hload Hjoin Hadapter Hanalytics.
  destruct (handleSaveConsent_resolved _ _ _ _ _ _ Hrun)
    as (saved' & args' & -> & Hcustom).
  simpl in Heff. apply app_inv_head in Heff. injection Heff as -> ->.
  destruct (initialise_succeeds props env' mounted _ _ _ Hload Hjoin Hadapter Hanalytics)
    as [c2 Hmount].
  exists c2. split; [exact Hmount|].
  destruct (initialise_resolved _ _ _ _ Hmount)
    as (stored & isRequired & catalog & Hload' & Hjoin' & Hl & Hd & Hnew & Hprefs & Hr & _).
  rewrite Hload in Hload'. injection Hload' as <-.
  rewrite Hjoin in Hjoin'. injection Hjoin' as <- <-.
  simpl in *. repeat split; try done.
  rewrite Hprefs. destruct (mapCustomPreferences props) as [adapter|].
  - by destruct (proj2 Hcustom (mk_is_Some _ _ eq_refl)) as [custom ->].
  - destruct (save_customPreferences saved) as [custom|]; [|done].
    destruct (proj1 Hcustom (mk_is_Some _ _ eq_refl)) as [? [=]].
Qed.

Lemma X17_witness :
  let env := quiet consentedA [dA; dB] in
  let c := (initialise plain env mounted).2 in
  let run := handleSaveConsent plain env (NPBoolean true) None c in
  ∃ saved c2,
    lastSaved (effects run.2) = Some (save_destinationPreferences saved)
    ∧ initialise plain (quiet (persistedBy saved) [dA; dB]) mounted = (Resolved tt, c2)
    ∧ newDestinations (state c2) = []
    ∧ preferences (state c2) = Some {["a" := VBool true; "b" := VBool true]}.
Proof.
  intros env c run.
  pose (saved := {| save_destinationPreferences :=
                      mergePreferences [dA; dB] {["a" := VBool true]} (NPBoolean true);
                    save_customPreferences := None;
                    save_cookieDomain := None |}).
  assert (Hdep : ∀ adapter (ds : list Destination) (prefs : CategoryPreferences),
            mapCustomPreferences plain = Some adapter →
            ∃ mapped, adapter ds prefs = Resolved mapped)
    by (intros adapter ds prefs H; discriminate H).
  destruct (X17_mount_after_save_restores_state plain env
              (quiet (persistedBy saved) [dA; dB]) (NPBoolean true) None c run.2
              saved _ eq_refl eq_refl eq_refl eq_refl Hdep (fun _ => eq_refl))
    as (c2 & Hmount & _ & _ & Hnew & Hprefs & _).
  exists saved, c2. split; [reflexivity|]. split; [exact Hmount|]. split.
  - rewrite Hnew. reflexivity.
  - rewrite Hprefs. vm_compute. reflexivity.
Defined.

(** X18. Once the component is ready it stays ready: after any run of
    operations, failed ones included, the render callback is invoked, with
    the catalog and the consent requirement that initialisation published
    and the current [newDestinations] and [preferences]. No operation
    changes [destinations], [isConsentRequired] or [isLoading]. *)
Theorem X18_ready_forever
    (props : Props) (ops : list (Collaborators * Operation)) (c1 : Component) :
  isLoading (state c1) = false →
  ∃ c2,
    lifetime props ops c1 = (Resolved tt, c2)
    ∧ render (state c2)
      = Some {| render_destinations := destinations (state c1);
                render_newDestinations := newDestinations (state c2);
                render_preferences := preferences (state c2);
                render_isConsentRequired := isConsentRequired (state c1) |}.
Proof.
  intros Hready.
  destruct (lifetime_spec ∅ props ops c1) as (c2 & Hrun & Hl & Hd & Hr & _).
  exists c2. split; [exact Hrun|].
  unfold render. by rewrite Hl, Hready, Hd, Hr.
Qed.

Lemma X18_witness :
  let env := quiet consentedA [dA; dB] in
  let c1 := (initialise plain env mounted).2 in
  isLoading (state c1) = false
  ∧ ∃ c2 shown,
      lifetime plain
        [(analyticsDown consentedA [], SaveConsent (NPBoolean false) None);
         (env, ResetPreferences)] c1 = (Resolved tt, c2)
      ∧ render (state c2) = Some shown
      ∧ render_destinations shown = [dA; dB].
Proof.
  intros env c1. split; [reflexivity|].
  destruct (X18_ready_forever plain
              [(analyticsDown consentedA [], SaveConsent (NPBoolean false) None);
               (env, ResetPreferences)] c1 eq_refl) as (c2 & Hrun & Hrender).
  exists c2. eexists. split; [exact Hrun|]. split; [exact Hrender|]. reflexivity.
Defined.

Section Effects.
Implicit Types (props : Props) (env : Collaborators) (c : Component).

(** The effects of one operation. *)
Lemma attempt_effects props env op c :
  ∃ c' evs,
    attempt props env op c = (Resolved tt, c')
    ∧ effects c' = effects c ++ evs
    ∧ (List.length (List.filter isStoreWrite evs)
       ≤ if isSaveConsent (env, op) then 1 else 0)%nat
    ∧ (List.length (List.filter isActivation evs)
       ≤ List.length (List.filter isStoreWrite evs))%nat
    ∧ List.filter (fun ev => negb (isStoreWrite ev || isActivation ev)) evs = [].
Proof.
  destruct op as [newPreferences| |newPreferences shouldReload].
  - exists {| state := state (handleSetPreferences newPreferences c).2;
              effects := effects c |}, [].
    rewrite app_nil_r. simpl. repeat split; lia.
  - unfold attempt, perform, handleResetPreferences. unfold_engine.
    destruct (loadPreferences env) as [stored|]; eexists; exists [];
      rewrite app_nil_r; simpl; (split; [reflexivity|]); simpl;
      repeat split; lia.
  - unfold attempt, perform, handleSaveConsent. unfold_engine.
    cbn -[mergePreferences].
    destruct (mapCustomPreferences props) as [adapter|].
    + destruct (adapter _ _) as [mapped|].
      * destruct (mapped_customPreferences mapped) as [custom|];
          cbn -[mergePreferences];
          (destruct (savePreferences env _);
            [destruct (conditionallyLoadAnalytics env _)|]);
          cbn -[mergePreferences]; rewrite <- ?app_assoc;
          do 2 eexists; (split; [reflexivity|]); cbn -[mergePreferences];
          (split; [reflexivity|]); simpl; repeat split; lia.
      * eexists. exists []. rewrite app_nil_r. cbn -[mergePreferences].
        split; [reflexivity|]. simpl. repeat split; lia.
    + cbn -[mergePreferences].
      (destruct (savePreferences env _);
        [destruct (conditionallyLoadAnalytics env _)|]);
        cbn -[mergePreferences]; rewrite <- ?app_assoc;
        do 2 eexists; (split; [reflexivity|]); cbn -[mergePreferences];
        (split; [reflexivity|]); simpl; repeat split; lia.
Qed.
End Effects.

(** X19. Over any run of operations the effects only grow, by store writes
    and analytics activations alone: the error handler is not called, there
    is at most one store write per [saveConsent] and none for the other
    operations, and there are never more activations than store writes. *)
Theorem X19_effects_of_a_lifetime
    (props : Props) (ops : list (Collaborators * Operation)) (c : Component) :
  ∃ c' evs,
    lifetime props ops c = (Resolved tt, c')
    ∧ effects c' = effects c ++ evs
    ∧ (List.length (List.filter isStoreWrite evs)
       ≤ List.length (List.filter isSaveConsent ops))%nat
    ∧ (List.length (List.filter isActivation evs)
       ≤ List.length (List.filter isStoreWrite evs))%nat
    ∧ List.filter (fun ev => negb (isStoreWrite ev || isActivation ev)) evs = [].
Proof.
  revert c. induction ops as [|[env op] ops IH]; intros c.
  - exists c, []. rewrite app_nil_r. simpl. repeat split; lia.
  - destruct (attempt_effects props env op c)
      as (c1 & evs1 & Hrun1 & Heff1 & Hw1 & Ha1 & Ho1).
    destruct (IH c1) as (c2 & evs2 & Hrun2 & Heff2 & Hw2 & Ha2 & Ho2).
    exists c2, (evs1 ++ evs2). split.
    { cbn [lifetime]. unfold mbind, M_bind, bind. by rewrite Hrun1. }
    split; [by rewrite Heff2, Heff1, app_assoc|].
    rewrite !List.filter_app, !length_app, Ho1, Ho2.
    cbn [List.filter]. unfold isSaveConsent at 1. cbn [snd].
    unfold isSaveConsent in Hw1. cbn [snd] in Hw1.
    repeat split; [|lia].
    destruct op; simpl in *; lia.
Qed.

(** X20. When the store holds no destination-level preferences, a completed
    initialisation reports as new every destination of the catalog whose id
    is not the name of a member inherited from [Object.prototype], and only
    those, whatever the initial preferences and the adapter, the fresh-user
    branch included: the whole catalog when no id is such a name. *)
Theorem X20_no_record_all_destinations_new
    (props : Props) (env : Collaborators) (stored : Preferences) (c c' : Component) :
  loadPreferences env = Resolved stored →
  loaded_destinationPreferences stored = None →
  initialise props env c = (Resolved tt, c') →
  newDestinations (state c')
  = List.filter (fun d => negb (inherited (id d))) (destinations (state c'))
  ∧ ((∀ d, d ∈ destinations (state c') → inherited (id d) = false) →
       newDestinations (state c') = destinations (state c')).
Proof.
  intros Hload Hnone Hrun.
  destruct (initialise_resolved _ _ _ _ Hrun)
    as (stored' & ? & catalog & Hload' & _ & _ & Hd & Hnew & _).
  rewrite Hload in Hload'. injection Hload' as <-.
  rewrite Hnone in Hnew.
  change (default ∅ None) with (∅ : CategoryPreferences) in Hnew.
  rewrite destinationsWithoutConsent_empty in Hnew.
  rewrite Hnew, Hd. split; [done|].
  intros HD. apply filter_all. intros d Hin. by rewrite (HD d Hin).
Qed.

Lemma X20_witness :
  let props := withAdapter consentToA declared in
  newDestinations (state (initialise props (quiet noRecord [dA; dB]) mounted).2)
  = [dA; dB]
  ∧ newDestinations
      (state (initialise props (quiet noRecord [dConstructor; dA]) mounted).2)
    = [dA].
Proof.
  intros props. split.
  - apply (X20_no_record_all_destinations_new props (quiet noRecord [dA; dB])
             noRecord mounted (initialise props (quiet noRecord [dA; dB]) mounted).2
             eq_refl eq_refl eq_refl).
    intros d [->|[->|Hd%elem_of_nil]%elem_of_cons]%elem_of_cons;
      [reflexivity | reflexivity | done].
  - exact (eq_trans
             (proj1 (X20_no_record_all_destinations_new props
                       (quiet noRecord [dConstructor; dA]) noRecord mounted
                       (initialise props (quiet noRecord [dConstructor; dA]) mounted).2
                       eq_refl eq_refl eq_refl))
             eq_refl).
Defined.

(** X21. Without an adapter, a [saveConsent(b)] with a boolean during which
    nothing throws leaves no new destination: it writes to the store, and
    exposes as [preferences], the mapping that binds exactly the ids of the
    catalog to [b], and [newDestinations] is empty. *)
Theorem X21_bulk_save_clears_newDestinations
    (props : Props) (env : Collaborators) (b : bool)
    (shouldReload : option bool) (c : Component) :
  mapCustomPreferences props = None →
  (∀ args, savePreferences env args = Resolved tt) →
  (∀ args, conditionallyLoadAnalytics env args = Resolved tt) →
  ∃ c' saved args,
    handleSaveConsent props env (NPBoolean b) shouldReload c = (Resolved tt, c')
    ∧ effects c' = effects c ++ [EvSavePreferences saved; EvLoadAnalytics args]
    ∧ (∀ k, save_destinationPreferences saved !! k
            = if bool_decide (k ∈ id <$> destinations (state c))
              then Some (VBool b) else None)
    ∧ save_customPreferences saved = None
    ∧ preferences (state c') = Some (save_destinationPreferences saved)
    ∧ newDestinations (state c') = [].
Proof.
  intros Hnone Hsave Hanalytics.
  unfold handleSaveConsent. unfold_engine. cbn -[mergePreferences].
  rewrite Hnone. cbn -[mergePreferences]. rewrite Hsave, Hanalytics.
  cbn -[mergePreferences]. rewrite <- app_assoc.
  do 3 eexists. split; [reflexivity|]. cbn -[mergePreferences].
  split; [reflexivity|]. split; [|split; [done|split; [done|]]].
  - intros k. cbn [save_destinationPreferences]. unfold mergePreferences.
    by rewrite lookup_broadcast, lookup_empty.
  - cbn -[mergePreferences]. apply filter_nil_iff. intros d Hd.
    apply bool_decide_eq_false. unfold get, mergePreferences.
    rewrite lookup_broadcast, bool_decide_eq_true_2; [done|].
    by apply list_elem_of_fmap_2.
Qed.

Lemma X21_witness :
  let env := quiet noRecord [dA; dB] in
  let c := (initialise plain env mounted).2 in
  newDestinations (state c) = [dA; dB]
  ∧ ∃ c', handleSaveConsent plain env (NPBoolean false) None c = (Resolved tt, c')
          ∧ newDestinations (state c') = [].
Proof.
  intros env c. split; [reflexivity|].
  destruct (X21_bulk_save_clears_newDestinations plain env false None c
              eq_refl (fun _ => eq_refl) (fun _ => eq_refl))
    as (c' & saved & args & Hrun & _ & _ & _ & _ & Hnew).
  exists c'. split; [exact Hrun | exact Hnew].
Defined.
